(** * CNBC daily brief: the aggregator of [cnbc_aggregator.py]

    A shallow embedding of the class [CNBCAggregator]: its three fetch
    modules and [run], written over an explicit state (the list
    [data_store] and the chronological trace of the effects the program
    performs) with a small state-and-exception monad, followed by the
    properties of the ingestion core.

    The outside world (the HTTP client, the markup parser, the feed parser,
    the transcript provider, the clock and the CSV writer) is a value of type
    [World]: the embedding is a function of what those collaborators
    answer. *)

From Stdlib Require Import List String Ascii ZArith Lia Bool Arith.
Import ListNotations.
Open Scope string_scope.

(** ** Python strings

    Text is modelled by [string]; the operations below are the ones the
    source applies to [str] values. [lower] is the ASCII case folding. *)

Module Py.

(** [s.startswith(p)] *)
Definition startswith (s p : string) : bool := String.prefix p s.

(** [k in s] for two strings: [k] occurs in [s] as a substring. *)
Fixpoint contains (k s : string) : bool :=
  String.prefix k s ||
  match s with
  | EmptyString => false
  | String _ s' => contains k s'
  end.

Definition lower_char (c : ascii) : ascii :=
  let n := nat_of_ascii c in
  if Nat.leb 65 n && Nat.leb n 90 then ascii_of_nat (n + 32) else c.

(** [s.lower()] *)
Fixpoint lower (s : string) : string :=
  match s with
  | EmptyString => EmptyString
  | String c s' => String (lower_char c) (lower s')
  end.

(** [s[:n]] *)
Fixpoint take (n : nat) (s : string) : string :=
  match n, s with
  | S n', String c s' => String c (take n' s')
  | _, _ => EmptyString
  end.

(** [sep.join(parts)] *)
Definition join (sep : string) (parts : list string) : string :=
  String.concat sep parts.

(** Truth value of a string in a condition: the empty string is false. *)
Definition truthy (s : string) : bool := negb (s =? "").

End Py.

(** ** Exceptions and fallible values *)

Inductive exn : Type :=
| AttributeError (attr : string)
| Error (msg : string).

(** [str(e)] *)
Definition exn_str (e : exn) : string :=
  match e with
  | AttributeError attr => "object has no attribute '" ++ attr ++ "'"
  | Error msg => msg
  end.

(** What a call into a collaborator gives: a value, or a raised exception. *)
Inductive res (A : Type) : Type :=
| Val (a : A)
| Exc (e : exn).
Arguments Val {A} a.
Arguments Exc {A} e.

(** ** Data model *)

(** The three literals written to the key ['Source_Type']. *)
Inductive SourceType : Type := WebNews | YouTubeVideo | PodcastRSS.

Definition source_type_label (t : SourceType) : string :=
  match t with
  | WebNews => "Web News"
  | YouTubeVideo => "YouTube Video"
  | PodcastRSS => "Podcast RSS"
  end.

(** One dict appended to [data_store]. ['Link'] is [None] for Python's
    [None]. *)
Record Row : Type := mkRow {
  Source_Type : SourceType;
  Timestamp : string;
  Headline : string;
  Snippet : string;
  Link : option string
}.

(** An element matched by [soup.select('.Card-title')]: what
    [get_text(strip=True)] and [get('href')] answer on it. *)
Record Tag : Type := mkTag {
  tag_text : res string;
  tag_href : res (option string)
}.

(** The answer of [requests.get]: the status code and the elements that
    the selector ['.Card-title'] matches in the body. *)
Record Response : Type := mkResponse {
  status_code : Z;
  card_titles : list Tag
}.

(** A feed entry; an attribute that the entry does not have is [None]
    (reading it through [entry.name] raises [AttributeError]). *)
Record FeedEntry : Type := mkEntry {
  yt_videoid : option string;
  title : option string;
  published : option string;
  link : option string;
  description : option string
}.

Record World : Type := mkWorld {
  requests_get : string -> res Response;
  feedparser_parse : string -> res (list FeedEntry);
  get_transcript : string -> res (list string);
  html_get_text : string -> string;
  today : string;
  today_compact : string;
  to_csv : string -> list Row -> res unit
}.

(** Lines written by [self.log] and [print]. *)
Inductive Message : Type :=
| MsgWebStart
| MsgWebStatus (code : Z)
| MsgWebDone (count : nat)
| MsgWebError (e : exn)
| MsgYouTubeStart
| MsgTranscriptRetrieved (title30 : string)
| MsgNoTranscript (video_id : string) (err50 : string)
| MsgPodcastStart
| MsgPodcastParsed (n : nat)
| MsgPodcastError (e : exn)
| MsgInitiating
| MsgSuccess (filename : string)
| MsgSample (rows : list (SourceType * string))
| MsgWarningNoData.

(** Observable effects, in the order they happen. [GetTranscript] and
    [ToCsv] are the calls of [get_transcript] and of [df.to_csv], recorded
    when they are made, whatever they answer. *)
Inductive Event : Type :=
| Log (m : Message)
| GetTranscript (video_id : string)
| Sleep (lo hi : nat)
| ToCsv (filename : string) (rows : list Row).

Record State : Type := mkState {
  data_store : list Row;
  trace : list Event
}.

(** [CNBCAggregator.__init__] *)
Definition init : State := {| data_store := []; trace := [] |}.

(** ** The monad: state, and exceptions that keep the state reached *)

Inductive outcome (A : Type) : Type :=
| Returns (a : A) (s : State)
| Raises (e : exn) (s : State).
Arguments Returns {A} a s.
Arguments Raises {A} e s.

Definition state_of {A} (o : outcome A) : State :=
  match o with
  | Returns _ s => s
  | Raises _ s => s
  end.

Definition raised {A} (o : outcome A) : bool :=
  match o with
  | Returns _ _ => false
  | Raises _ _ => true
  end.

Definition M (A : Type) : Type := State -> outcome A.

Definition ret {A} (a : A) : M A := fun s => Returns a s.

Definition raise {A} (e : exn) : M A := fun s => Raises e s.

Definition bind {A B} (m : M A) (f : A -> M B) : M B :=
  fun s =>
    match m s with
    | Returns a s' => f a s'
    | Raises e s' => Raises e s'
    end.

(** [try: m except Exception as e: h e] *)
Definition try_except {A} (m : M A) (h : exn -> M A) : M A :=
  fun s =>
    match m s with
    | Returns a s' => Returns a s'
    | Raises e s' => h e s'
    end.

Declare Scope py_scope.
Delimit Scope py_scope with py.
Notation "x <- m ;; k" := (bind m (fun x => k))
  (at level 61, m at next level, right associativity) : py_scope.
Notation "m ;; k" := (bind m (fun _ => k))
  (at level 61, right associativity) : py_scope.
Open Scope py_scope.

Definition lift {A} (r : res A) : M A :=
  match r with
  | Val a => ret a
  | Exc e => raise e
  end.

(** [entry.name] on a feed entry *)
Definition getattr {A} (name : string) (field : option A) : M A :=
  match field with
  | Some a => ret a
  | None => raise (AttributeError name)
  end.

Definition emit (ev : Event) : M unit :=
  fun s => Returns tt {| data_store := data_store s; trace := trace s ++ [ev] |}.

(** [self.log(message)] *)
Definition log (m : Message) : M unit := emit (Log m).

(** [self.data_store.append(row)] *)
Definition append (r : Row) : M unit :=
  fun s => Returns tt {| data_store := data_store s ++ [r]; trace := trace s |}.

Definition get_data_store : M (list Row) := fun s => Returns (data_store s) s.

(** [for x in l: f x] *)
Fixpoint for_each {A} (f : A -> M unit) (l : list A) : M unit :=
  match l with
  | [] => ret tt
  | x :: rest => f x ;; for_each f rest
  end.

(** ** The aggregator *)

Section Aggregator.

Variable w : World.

(** *** Module 1: web scraper *)

Definition web_url : string := "https://www.cnbc.com/finance/".

(** Lines 50-51: relative URLs get the site origin in front. *)
Definition resolve_link (link : option string) : option string :=
  match link with
  | Some l =>
      if Py.truthy l && negb (Py.startswith l "http")
      then Some ("https://www.cnbc.com" ++ l)
      else Some l
  | None => None
  end.

(** The body of the inner [try] up to the append (lines 46-59). *)
Definition scrape_article (article : Tag) : M unit :=
  title <- lift (tag_text article) ;;
  link <- lift (tag_href article) ;;
  append {| Source_Type := WebNews;
            Timestamp := today w;
            Headline := title;
            Snippet := "N/A (Click link for full text)";
            Link := resolve_link link |}.

(** One iteration of the loop of line 44, with the running [count]. *)
Definition web_step (article : Tag) (count : nat) : M nat :=
  try_except (scrape_article article ;; ret (S count))
             (fun _ => ret count).

Fixpoint web_loop (articles : list Tag) (count : nat) : M nat :=
  match articles with
  | [] => ret count
  | article :: rest => count' <- web_step article count ;; web_loop rest count'
  end.

Definition fetch_web_news : M unit :=
  log MsgWebStart ;;
  try_except
    (response <- lift (requests_get w web_url) ;;
     if negb (status_code response =? 200)%Z
     then log (MsgWebStatus (status_code response))
     else
       let articles := card_titles response in
       count <- web_loop (firstn 15 articles) 0 ;;
       log (MsgWebDone count))
    (fun e => log (MsgWebError e)).

(** *** Module 2: YouTube transcripts *)

Definition youtube_rss_url : string :=
  "https://www.youtube.com/feeds/videos.xml?channel_id=UCrp_UI8XtuYfpiqluWLD7Lw".

Definition keywords : list string :=
  ["cramer"; "morning"; "club"; "investing"; "stock"].

(** [any(k in title for k in keywords)] on the lower-cased title *)
Definition relevant (lowered : string) : bool :=
  existsb (fun k => Py.contains k lowered) keywords.

(** The body of the [try] of lines 93-111. *)
Definition transcribe (entry : FeedEntry) (video_id : string) : M unit :=
  emit (GetTranscript video_id) ;;
  transcript_list <- lift (get_transcript w video_id) ;;
  let full_text := Py.join " " transcript_list in
  let snippet := Py.take 500 full_text ++ "..." in
  published <- getattr "published" (published entry) ;;
  headline <- getattr "title" (title entry) ;;
  link <- getattr "link" (link entry) ;;
  append {| Source_Type := YouTubeVideo;
            Timestamp := published;
            Headline := headline;
            Snippet := snippet;
            Link := Some link |} ;;
  log (MsgTranscriptRetrieved (Py.take 30 headline)) ;;
  emit (Sleep 1 3).

(** One iteration of the loop of line 87. *)
Definition youtube_entry (entry : FeedEntry) : M unit :=
  video_id <- getattr "yt_videoid" (yt_videoid entry) ;;
  t <- getattr "title" (title entry) ;;
  let title := Py.lower t in
  if relevant title
  then try_except (transcribe entry video_id)
                  (fun e => log (MsgNoTranscript video_id (Py.take 50 (exn_str e))))
  else ret tt.

Definition fetch_youtube_intelligence : M unit :=
  log MsgYouTubeStart ;;
  entries <- lift (feedparser_parse w youtube_rss_url) ;;
  for_each youtube_entry (firstn 5 entries).

(** *** Module 3: podcast feed *)

Definition podcast_rss_url : string := "https://feeds.simplecast.com/GcylmXl7".

(** One iteration of the loop of line 129. *)
Definition podcast_entry (entry : FeedEntry) : M unit :=
  let published_date :=
    match published entry with
    | Some p => p
    | None => today w
    end in
  description <- getattr "description" (description entry) ;;
  let summary := Py.take 400 (html_get_text w description) ++ "..." in
  headline <- getattr "title" (title entry) ;;
  link <- getattr "link" (link entry) ;;
  append {| Source_Type := PodcastRSS;
            Timestamp := published_date;
            Headline := headline;
            Snippet := summary;
            Link := Some link |}.

Definition fetch_podcast_intelligence : M unit :=
  log MsgPodcastStart ;;
  try_except
    (entries <- lift (feedparser_parse w podcast_rss_url) ;;
     for_each podcast_entry (firstn 3 entries) ;;
     log (MsgPodcastParsed (Nat.min 3 (List.length entries))))
    (fun e => log (MsgPodcastError e)).

(** *** Main execution *)

(** Lines 161-173: the rows go to a data frame and [df.to_csv] writes it.
    The call is outside any [try], and what it answers comes from the world;
    building the frame from the rows and printing are taken as total. *)
Definition save_to_csv : M unit :=
  rows <- get_data_store ;;
  match rows with
  | _ :: _ =>
      let filename := "cnbc_intelligence_" ++ today_compact w ++ ".csv" in
      emit (ToCsv filename rows) ;;
      lift (to_csv w filename rows) ;;
      log (MsgSuccess filename) ;;
      log (MsgSample (map (fun r => (Source_Type r, Headline r)) (firstn 5 rows)))
  | [] => log MsgWarningNoData
  end.

Definition run : M unit :=
  log MsgInitiating ;;
  fetch_web_news ;;
  emit (Sleep 1 1) ;;
  fetch_youtube_intelligence ;;
  emit (Sleep 1 1) ;;
  fetch_podcast_intelligence ;;
  save_to_csv.

(** [aggregator = CNBCAggregator(); aggregator.run()] *)
Definition main : outcome unit := run init.

End Aggregator.

(** ** Specification vocabulary *)

Open Scope list_scope.

(** The feed entries that the loop of [fetch_youtube_intelligence] visits. *)
Definition scanned (w : World) : list FeedEntry :=
  match feedparser_parse w youtube_rss_url with
  | Val entries => firstn 5 entries
  | Exc _ => []
  end.

(** The elements that the loop of [fetch_web_news] visits. *)
Definition candidates (w : World) : list Tag :=
  match requests_get w web_url with
  | Val response =>
      if (status_code response =? 200)%Z then firstn 15 (card_titles response) else []
  | Exc _ => []
  end.

(** The feed entries that the loop of [fetch_podcast_intelligence] visits. *)
Definition episodes (w : World) : list FeedEntry :=
  match feedparser_parse w podcast_rss_url with
  | Val entries => firstn 3 entries
  | Exc _ => []
  end.

(** [Adds P Q n m]: from any state, [m] (whether it returns or raises) only
    appends to [data_store] and to the trace; it appends at most [n] rows,
    all satisfying [P], and events all satisfying [Q]. *)
Definition Adds {A} (P : Row -> Prop) (Q : Event -> Prop) (n : nat) (m : M A) : Prop :=
  forall s, exists rows evs,
    data_store (state_of (m s)) = data_store s ++ rows /\
    trace (state_of (m s)) = trace s ++ evs /\
    Forall P rows /\ Forall Q evs /\ List.length rows <= n.

(** [s'] is [s] with the rows [rows] appended, in this order. *)
Definition grows_by (s s' : State) (rows : list Row) : Prop :=
  data_store s' = data_store s ++ rows.

(** [Appends R m]: from any state, [m] (whether it returns or raises) only
    appends rows to [data_store], and the list of rows it appends satisfies
    [R]. *)
Definition Appends {A} (R : list Row -> Prop) (m : M A) : Prop :=
  forall s, exists rows, grows_by s (state_of (m s)) rows /\ R rows.

(** The rows of one run, grouped by module in the order of the calls. *)
Definition by_source (rows : list Row) : Prop :=
  exists web video podcast,
    rows = web ++ video ++ podcast /\
    Forall (fun r => Source_Type r = WebNews) web /\
    Forall (fun r => Source_Type r = YouTubeVideo) video /\
    Forall (fun r => Source_Type r = PodcastRSS) podcast.


(** [r] is the row that [scrape_article] builds from [article]. *)
Definition web_row (w : World) (article : Tag) (r : Row) : Prop :=
  exists t href,
    tag_text article = Val t /\ tag_href article = Val href /\
    r = {| Source_Type := WebNews;
           Timestamp := today w;
           Headline := t;
           Snippet := "N/A (Click link for full text)";
           Link := resolve_link href |}.

(** [r] is the row that [youtube_entry] builds from [entry]: the entry passed
    the keyword filter and its transcript was retrieved. *)
Definition video_row (w : World) (entry : FeedEntry) (r : Row) : Prop :=
  exists video_id t p l segments,
    yt_videoid entry = Some video_id /\ title entry = Some t /\
    relevant (Py.lower t) = true /\
    get_transcript w video_id = Val segments /\
    published entry = Some p /\ link entry = Some l /\
    r = {| Source_Type := YouTubeVideo;
           Timestamp := p;
           Headline := t;
           Snippet := (Py.take 500 (Py.join " " segments) ++ "...")%string;
           Link := Some l |}.

(** [r] is the row that [podcast_entry] builds from [entry]. *)
Definition podcast_row (w : World) (entry : FeedEntry) (r : Row) : Prop :=
  exists d t l,
    description entry = Some d /\ title entry = Some t /\ link entry = Some l /\
    r = {| Source_Type := PodcastRSS;
           Timestamp := match published entry with Some p => p | None => today w end;
           Headline := t;
           Snippet := (Py.take 400 (html_get_text w d) ++ "...")%string;
           Link := Some l |}.

(** Events that are neither a transcript request nor the export. *)
Definition quiet (ev : Event) : Prop :=
  match ev with
  | Log _ | Sleep _ _ => True
  | GetTranscript _ | ToCsv _ _ => False
  end.

(** The events one iteration on [entry] may perform: a transcript request
    only for the entry's own identifier, and only when its title passes the
    keyword filter. *)
Definition entry_event (entry : FeedEntry) (ev : Event) : Prop :=
  match ev with
  | Log _ | Sleep _ _ => True
  | GetTranscript video_id =>
      exists t, yt_videoid entry = Some video_id /\ title entry = Some t /\
                relevant (Py.lower t) = true
  | ToCsv _ _ => False
  end.

(** The extraction of both the text and the href of [article] succeeds. *)
Definition extracts (article : Tag) : bool :=
  match tag_text article, tag_href article with
  | Val _, Val _ => true
  | _, _ => false
  end.

(** [entry] has the three attributes that [podcast_entry] reads through
    [entry.name]. *)
Definition complete (entry : FeedEntry) : Prop :=
  description entry <> None /\ title entry <> None /\ link entry <> None.

(** [good] is the part of [entries] before the first entry that is not
    complete: all of [entries] when there is none. *)
Definition up_to_first_incomplete (entries good : list FeedEntry) : Prop :=
  exists rest,
    entries = good ++ rest /\ Forall complete good /\
    match rest with
    | [] => True
    | bad :: _ => ~ complete bad
    end.

(** [entry] has the two attributes that the video loop reads before its
    [try]. *)
Definition identified (entry : FeedEntry) : Prop :=
  yt_videoid entry <> None /\ title entry <> None.

(** The number of events of a kind in a trace. *)
Definition count (kind : Event -> bool) (evs : list Event) : nat :=
  List.length (filter kind evs).

(** The delay of line 111. *)
Definition is_throttle (ev : Event) : bool :=
  match ev with
  | Sleep 1 3 => true
  | _ => false
  end.

Definition is_request (ev : Event) : bool :=
  match ev with
  | GetTranscript _ => true
  | _ => false
  end.

(** The log line of line 108. *)
Definition is_retrieved (ev : Event) : bool :=
  match ev with
  | Log (MsgTranscriptRetrieved _) => true
  | _ => false
  end.

(** The log line of line 115. *)
Definition is_unavailable (ev : Event) : bool :=
  match ev with
  | Log (MsgNoTranscript _ _) => true
  | _ => false
  end.

(** The bookkeeping of the video loop over the rows [rows] and the events
    [evs] it added: one delay and one success line per row, and every
    transcript request answered by a row or by a failure line. *)
Definition accounted (rows : list Row) (evs : list Event) : Prop :=
  count is_throttle evs = List.length rows /\
  count is_retrieved evs = List.length rows /\
  count is_request evs = List.length rows + count is_unavailable evs.

(** The calls of [to_csv], with the file name and the rows, in order. *)
Fixpoint exports (evs : list Event) : list (string * list Row) :=
  match evs with
  | [] => []
  | ToCsv filename rows :: rest => (filename, rows) :: exports rest
  | _ :: rest => exports rest
  end.

(** ** Sample worlds *)

Definition sample_cards : list Tag :=
  [ mkTag (Val "Stocks rally into the close") (Val (Some "/2024/05/01/stocks.html"));
    mkTag (Val "") (Val (Some ""));
    mkTag (Val "Fed holds rates") (Val None);
    mkTag (Exc (Error "malformed markup")) (Val (Some "/x"));
    mkTag (Val "Earnings preview") (Val (Some "https://www.cnbc.com/earnings/")) ].

Definition sample_videos : list FeedEntry :=
  [ mkEntry (Some "vid1") (Some "Market Open") (Some "2024-05-01T13:00:00+00:00")
            (Some "https://www.youtube.com/watch?v=vid1") None;
    mkEntry (Some "vid2") (Some "Cramer's Picks") (Some "2024-05-01T12:00:00+00:00")
            (Some "https://www.youtube.com/watch?v=vid2") None;
    mkEntry (Some "vid3") (Some "Weather") (Some "2024-05-01T11:00:00+00:00")
            (Some "https://www.youtube.com/watch?v=vid3") None;
    mkEntry (Some "vid4") (Some "Club Update") (Some "2024-05-01T10:00:00+00:00")
            (Some "https://www.youtube.com/watch?v=vid4") None;
    mkEntry (Some "vid5") (Some "Random") (Some "2024-05-01T09:00:00+00:00")
            (Some "https://www.youtube.com/watch?v=vid5") None ].

Definition sample_episodes : list FeedEntry :=
  [ mkEntry None (Some "Squawk on the Street 5/1") (Some "Wed, 01 May 2024 16:00:00 +0000")
            (Some "https://example.simplecast.com/episodes/1")
            (Some "<p>Stocks, the Fed and earnings.</p>");
    mkEntry None (Some "") None
            (Some "https://example.simplecast.com/episodes/2")
            (Some "<p>Carl, Jim and David.</p>") ].

(** A markup stripper good enough for the sample descriptions: it drops
    everything between ['<'] and ['>']. *)
Fixpoint strip_tags (inside : bool) (s : string) : string :=
  match s with
  | EmptyString => EmptyString
  | String c s' =>
      if Ascii.eqb c "<" then strip_tags true s'
      else if Ascii.eqb c ">" then strip_tags false s'
      else if inside then strip_tags inside s'
      else String c (strip_tags inside s')
  end.

Definition sample_feeds (videos : res (list FeedEntry)) (episodes : res (list FeedEntry))
    (url : string) : res (list FeedEntry) :=
  if url =? youtube_rss_url then videos
  else if url =? podcast_rss_url then episodes
  else Exc (Error "unknown feed").

(** The captions of [vid2] are an empty list; [vid4] has none yet. *)
Definition sample_transcripts (video_id : string) : res (list string) :=
  if video_id =? "vid2" then Val []
  else if video_id =? "vid1" then Val ["good morning"; "futures are higher"]
  else Exc (Error "Could not retrieve a transcript for the video").

Definition sample_world : World :=
  {| requests_get := fun _ => Val (mkResponse 200 sample_cards);
     feedparser_parse := sample_feeds (Val sample_videos) (Val sample_episodes);
     get_transcript := sample_transcripts;
     html_get_text := strip_tags false;
     today := "2024-05-01";
     today_compact := "20240501";
     to_csv := fun _ _ => Val tt |}.

(** The same world, with a video feed whose second entry carries no
    [yt:videoId] element. *)
Definition world_entry_without_id : World :=
  {| requests_get := requests_get sample_world;
     feedparser_parse :=
       sample_feeds
         (Val [ mkEntry (Some "vid2") (Some "Cramer's Picks") (Some "2024-05-01T12:00:00+00:00")
                        (Some "https://www.youtube.com/watch?v=vid2") None;
                mkEntry None (Some "Stock movers") (Some "2024-05-01T11:30:00+00:00")
                        (Some "https://www.youtube.com/watch?v=x") None ])
         (Val sample_episodes);
     get_transcript := sample_transcripts;
     html_get_text := strip_tags false;
     today := "2024-05-01";
     today_compact := "20240501";
     to_csv := fun _ _ => Val tt |}.

(** A page with twenty matching elements. *)
Definition world_twenty_cards : World :=
  {| requests_get :=
       fun _ => Val (mkResponse 200
                       (repeat (mkTag (Val "Markets today") (Val (Some "/markets/"))) 20));
     feedparser_parse := feedparser_parse sample_world;
     get_transcript := sample_transcripts;
     html_get_text := strip_tags false;
     today := "2024-05-01";
     today_compact := "20240501";
     to_csv := fun _ _ => Val tt |}.

(** The identifiers for which a transcript was requested, in order. *)
Fixpoint transcript_requests (evs : list Event) : list string :=
  match evs with
  | [] => []
  | GetTranscript video_id :: rest => video_id :: transcript_requests rest
  | _ :: rest => transcript_requests rest
  end.

(** The same world, with a podcast feed that cannot be parsed. *)
Definition world_podcast_down : World :=
  {| requests_get := requests_get sample_world;
     feedparser_parse :=
       sample_feeds (Val sample_videos) (Exc (Error "feed parse failure"));
     get_transcript := sample_transcripts;
     html_get_text := strip_tags false;
     today := "2024-05-01";
     today_compact := "20240501";
     to_csv := fun _ _ => Val tt |}.

(** The same world, with a site that answers 503. *)
Definition world_site_down : World :=
  {| requests_get := fun _ => Val (mkResponse 503 sample_cards);
     feedparser_parse := feedparser_parse sample_world;
     get_transcript := sample_transcripts;
     html_get_text := strip_tags false;
     today := "2024-05-01";
     today_compact := "20240501";
     to_csv := fun _ _ => Val tt |}.

(** The same world, with a connection that fails. *)
Definition world_offline : World :=
  {| requests_get := fun _ => Exc (Error "Connection refused");
     feedparser_parse := feedparser_parse sample_world;
     get_transcript := sample_transcripts;
     html_get_text := strip_tags false;
     today := "2024-05-01";
     today_compact := "20240501";
     to_csv := fun _ _ => Val tt |}.

(** The same world, with a directory in the place of the file to write. *)
Definition world_unwritable : World :=
  {| requests_get := requests_get sample_world;
     feedparser_parse := feedparser_parse sample_world;
     get_transcript := sample_transcripts;
     html_get_text := strip_tags false;
     today := "2024-05-01";
     today_compact := "20240501";
     to_csv := fun _ _ => Exc (Error "[Errno 21] Is a directory") |}.

(** An episode without a link, between two complete ones. *)
Definition episodes_with_gap : list FeedEntry :=
  [ mkEntry None (Some "Episode 12") (Some "Wed, 01 May 2024 16:00:00 +0000")
            (Some "https://example.simplecast.com/episodes/12") (Some "<p>Rates.</p>");
    mkEntry None (Some "Episode 11") (Some "Tue, 30 Apr 2024 16:00:00 +0000")
            None (Some "<p>Oil.</p>");
    mkEntry None (Some "Episode 10") (Some "Mon, 29 Apr 2024 16:00:00 +0000")
            (Some "https://example.simplecast.com/episodes/10") (Some "<p>Chips.</p>") ].

Definition world_episode_gap : World :=
  {| requests_get := requests_get sample_world;
     feedparser_parse := sample_feeds (Val sample_videos) (Val episodes_with_gap);
     get_transcript := sample_transcripts;
     html_get_text := strip_tags false;
     today := "2024-05-01";
     today_compact := "20240501";
     to_csv := fun _ _ => Val tt |}.

(** A video that passes the filter and has captions, in a feed entry that
    carries no link. *)
Definition video_without_link : FeedEntry :=
  mkEntry (Some "vid1") (Some "Stock futures rise") (Some "2024-05-01T13:00:00+00:00")
          None None.

(** Closes an [Adds] goal once the computation has been run symbolically. *)
Ltac close_adds :=
  simpl;
  eexists; eexists;
  split; [ repeat rewrite <- app_assoc; first [ reflexivity | symmetry; apply app_nil_r ] | ];
  split; [ repeat rewrite <- app_assoc; first [ reflexivity | symmetry; apply app_nil_r ] | ];
  simpl; repeat split; repeat constructor.

(** ** The embedding on the sample worlds *)

Example lower_title : Py.lower "Cramer's Picks" = "cramer's picks".
Proof. reflexivity. Qed.

Example relevant_titles :
  map (fun entry => match title entry with
                    | Some t => relevant (Py.lower t)
                    | None => false
                    end) sample_videos
  = [false; true; false; true; false].
Proof. reflexivity. Qed.

(** Of the five sample titles, two are eligible for a transcript request. *)
Example eligible_entries :
  transcript_requests (trace (state_of (fetch_youtube_intelligence sample_world init)))
  = ["vid2"; "vid4"].
Proof. reflexivity. Qed.

(** Twenty matching elements give fifteen rows, all from the web module. *)
Example twenty_candidates :
  map Source_Type (data_store (state_of (fetch_web_news world_twenty_cards init)))
  = repeat WebNews 15.
Proof. reflexivity. Qed.

Example run_on_sample_world :
  map (fun r => (Source_Type r, Headline r, Link r)) (data_store (state_of (main sample_world)))
  = [ (WebNews, "Stocks rally into the close",
       Some "https://www.cnbc.com/2024/05/01/stocks.html");
      (WebNews, "", Some "");
      (WebNews, "Fed holds rates", None);
      (WebNews, "Earnings preview", Some "https://www.cnbc.com/earnings/");
      (YouTubeVideo, "Cramer's Picks", Some "https://www.youtube.com/watch?v=vid2");
      (PodcastRSS, "Squawk on the Street 5/1",
       Some "https://example.simplecast.com/episodes/1");
      (PodcastRSS, "", Some "https://example.simplecast.com/episodes/2") ].
Proof. reflexivity. Qed.

(** ** Strings *)

Lemma length_append (a b : string) :
  String.length (a ++ b)%string = String.length a + String.length b.
Proof. induction a as [|c a IH]; simpl; [reflexivity | now rewrite IH]. Qed.

Lemma length_take (n : nat) (s : string) : String.length (Py.take n s) <= n.
Proof.
  revert s; induction n as [|n IH]; intros [|c s]; simpl; try lia.
  specialize (IH s); lia.
Qed.

(** A title that passes the keyword filter is not empty: no keyword is. *)
Lemma relevant_nonempty (t : string) : relevant (Py.lower t) = true -> t <> "".
Proof.
  intros H ->; vm_compute in H; discriminate.
Qed.

Lemma prefix_append (a b : string) : String.prefix a (a ++ b)%string = true.
Proof.
  induction a as [|c a IH]; simpl; [now destruct b |].
  destruct (ascii_dec c c); [exact IH | contradiction].
Qed.

Lemma prefix_spec (k s : string) :
  String.prefix k s = true <-> exists b, s = (k ++ b)%string.
Proof.
  revert s; induction k as [|c k IH]; intros s; simpl.
  - split; [intros _; now exists s | now destruct s].
  - destruct s as [|c' s]; simpl.
    + split; [discriminate | intros (b & Hb); discriminate].
    + destruct (ascii_dec c c') as [<- | Hne].
      * rewrite IH; split; intros (b & Hb); exists b; congruence.
      * split; [discriminate | intros (b & Hb); congruence].
Qed.

(** [Py.contains] is the substring test. *)
Lemma contains_spec (k s : string) :
  Py.contains k s = true <-> exists a b, s = (a ++ k ++ b)%string.
Proof.
  induction s as [|c s IH].
  - change (Py.contains k "") with (String.prefix k "" || false).
    rewrite orb_false_r, prefix_spec; split.
    + intros (b & Hb); now exists "", b.
    + intros ([|c a] & b & H); [now exists b | discriminate].
  - change (Py.contains k (String c s))
      with (String.prefix k (String c s) || Py.contains k s).
    rewrite orb_true_iff, IH, prefix_spec; split.
    + intros [(b & Hb) | (a & b & Hab)].
      * now exists "", b.
      * exists (String c a), b; simpl; now rewrite Hab.
    + intros ([|c' a] & b & H); simpl in H.
      * left; now exists b.
      * right; exists a, b; congruence.
Qed.


(** ** The monad's combinators and [Adds] *)

Section AddsRules.

Context {P : Row -> Prop} {Q : Event -> Prop}.

Lemma Adds_mono {A} (n n' : nat) (m : M A) :
  Adds P Q n m -> n <= n' -> Adds P Q n' m.
Proof.
  intros H Hn s; destruct (H s) as (rows & evs & ? & ? & ? & ? & ?).
  exists rows, evs; repeat split; auto; lia.
Qed.

Lemma Adds_ret {A} (a : A) : Adds P Q 0 (ret a).
Proof.
  intros s; exists [], []; simpl; rewrite !app_nil_r; repeat split; auto.
Qed.

Lemma Adds_raise {A} (e : exn) : Adds P Q 0 (raise (A:=A) e).
Proof.
  intros s; exists [], []; simpl; rewrite !app_nil_r; repeat split; auto.
Qed.

Lemma Adds_lift {A} (r : res A) : Adds P Q 0 (lift r).
Proof. destruct r; [apply Adds_ret | apply Adds_raise]. Qed.

Lemma Adds_getattr {A} (name : string) (field : option A) :
  Adds P Q 0 (getattr name field).
Proof. destruct field; [apply Adds_ret | apply Adds_raise]. Qed.

Lemma Adds_emit (ev : Event) : Q ev -> Adds P Q 0 (emit ev).
Proof.
  intros HQ s; exists [], [ev]; simpl; rewrite app_nil_r; repeat split; auto.
Qed.

Lemma Adds_append (r : Row) : P r -> Adds P Q 1 (append r).
Proof.
  intros HP s; exists [r], []; simpl; rewrite app_nil_r; repeat split; auto.
Qed.

Lemma Adds_get_data_store : Adds P Q 0 get_data_store.
Proof.
  intros s; exists [], []; simpl; rewrite !app_nil_r; repeat split; auto.
Qed.

Lemma Adds_bind {A B} (n1 n2 : nat) (m : M A) (f : A -> M B) :
  Adds P Q n1 m -> (forall a, Adds P Q n2 (f a)) -> Adds P Q (n1 + n2) (bind m f).
Proof.
  intros Hm Hf s; unfold bind.
  destruct (Hm s) as (r1 & e1 & Hd & Ht & HP & HQ & Hl).
  destruct (m s) as [a s1 | e s1]; simpl in Hd, Ht.
  - destruct (Hf a s1) as (r2 & e2 & Hd2 & Ht2 & HP2 & HQ2 & Hl2).
    exists (r1 ++ r2), (e1 ++ e2).
    rewrite Hd2, Ht2, Hd, Ht, <- !app_assoc, length_app.
    repeat split; auto using Forall_app; try (apply Forall_app; auto); lia.
  - exists r1, e1; simpl; repeat split; auto; lia.
Qed.

Lemma Adds_try_except {A} (n1 n2 : nat) (m : M A) (h : exn -> M A) :
  Adds P Q n1 m -> (forall e, Adds P Q n2 (h e)) -> Adds P Q (n1 + n2) (try_except m h).
Proof.
  intros Hm Hh s; unfold try_except.
  destruct (Hm s) as (r1 & e1 & Hd & Ht & HP & HQ & Hl).
  destruct (m s) as [a s1 | e s1]; simpl in Hd, Ht.
  - exists r1, e1; simpl; repeat split; auto; lia.
  - destruct (Hh e s1) as (r2 & e2 & Hd2 & Ht2 & HP2 & HQ2 & Hl2).
    exists (r1 ++ r2), (e1 ++ e2).
    rewrite Hd2, Ht2, Hd, Ht, <- !app_assoc, length_app.
    repeat split; auto; try (apply Forall_app; auto); lia.
Qed.

Lemma Adds_for_each {A} (k : nat) (f : A -> M unit) (l : list A) :
  (forall x, In x l -> Adds P Q k (f x)) ->
  Adds P Q (List.length l * k) (for_each f l).
Proof.
  induction l as [|x l IH]; intros H; simpl.
  - apply Adds_ret.
  - apply Adds_bind.
    + apply H; now left.
    + intros _; apply IH; intros y Hy; apply H; now right.
Qed.

Lemma Adds_bind_ret {A B} (n : nat) (a : A) (f : A -> M B) :
  Adds P Q n (f a) -> Adds P Q n (bind (ret a) f).
Proof. intros H s; exact (H s). Qed.

Lemma Adds_bind_raise {A B} (n : nat) (e : exn) (f : A -> M B) :
  Adds P Q n (bind (raise e) f).
Proof.
  intros s; exists [], []; simpl; rewrite !app_nil_r; repeat split; auto; lia.
Qed.

(** A sequence whose first part appends no row. *)
Lemma Adds_seq {A B} (n : nat) (m : M A) (f : A -> M B) :
  Adds P Q 0 m -> (forall a, Adds P Q n (f a)) -> Adds P Q n (bind m f).
Proof. intros Hm Hf; apply (Adds_bind 0 n); assumption. Qed.

(** A sequence whose continuation appends no row. *)
Lemma Adds_then {A B} (n : nat) (m : M A) (f : A -> M B) :
  Adds P Q n m -> (forall a, Adds P Q 0 (f a)) -> Adds P Q n (bind m f).
Proof.
  intros Hm Hf; apply (Adds_mono (n + 0)); [now apply Adds_bind | lia].
Qed.

(** A [try] whose handler appends no row. *)
Lemma Adds_guarded {A} (n : nat) (m : M A) (h : exn -> M A) :
  Adds P Q n m -> (forall e, Adds P Q 0 (h e)) -> Adds P Q n (try_except m h).
Proof.
  intros Hm Hh; apply (Adds_mono (n + 0)); [now apply Adds_try_except | lia].
Qed.

End AddsRules.

Lemma Adds_impl {A} (P P' : Row -> Prop) (Q Q' : Event -> Prop) (n : nat) (m : M A) :
  Adds P Q n m -> (forall r, P r -> P' r) -> (forall ev, Q ev -> Q' ev) ->
  Adds P' Q' n m.
Proof.
  intros H HP HQ s; destruct (H s) as (rows & evs & ? & ? & ? & ? & ?).
  exists rows, evs; repeat split; eauto using Forall_impl.
Qed.

(** ** The web scraper *)

Section Web.

Variable w : World.

Lemma scrape_article_Adds (article : Tag) :
  Adds (web_row w article) quiet 1 (scrape_article w article).
Proof.
  intros s; unfold scrape_article, bind, lift, append, ret, raise.
  destruct (tag_text article) as [t|e] eqn:Et;
    [destruct (tag_href article) as [href|e] eqn:Eh|]; close_adds.
  exists t, href; auto.
Qed.

Lemma web_step_Adds (article : Tag) (count : nat) :
  Adds (web_row w article) quiet 1 (web_step w article count).
Proof.
  unfold web_step.
  apply (Adds_try_except 1 0).
  - apply (Adds_bind 1 0); [apply scrape_article_Adds | intros; apply Adds_ret].
  - intros; apply Adds_ret.
Qed.

Lemma web_loop_Adds (articles : list Tag) (count : nat) :
  Adds (fun r => exists article, In article articles /\ web_row w article r) quiet
       (List.length articles) (web_loop w articles count).
Proof.
  revert count; induction articles as [|a l IH]; intros count; simpl.
  - apply Adds_ret.
  - apply (Adds_bind 1 (List.length l)).
    + eapply Adds_impl; [apply web_step_Adds | | auto].
      intros r Hr; exists a; split; [now left | exact Hr].
    + intros c; eapply Adds_impl; [apply IH | | auto].
      intros r (x & Hx & Hr); exists x; split; [now right | exact Hr].
Qed.

Lemma web_step_returns (article : Tag) (count : nat) (s : State) :
  raised (web_step w article count s) = false.
Proof.
  unfold web_step, try_except, bind, scrape_article, bind, lift, append, ret, raise.
  destruct (tag_text article); [destruct (tag_href article)|]; reflexivity.
Qed.

Lemma web_loop_returns (articles : list Tag) (count : nat) (s : State) :
  raised (web_loop w articles count s) = false.
Proof.
  revert count s; induction articles as [|a l IH]; intros count s; simpl; [reflexivity|].
  unfold bind; generalize (web_step_returns a count s).
  destruct (web_step w a count s); simpl; [intros _; apply IH | discriminate].
Qed.

(** The web module never lets an exception out. *)
Lemma fetch_web_news_returns (s : State) : raised (fetch_web_news w s) = false.
Proof.
  unfold fetch_web_news, bind at 1; simpl.
  unfold try_except.
  match goal with |- context [match ?m ?s0 with _ => _ end] => destruct (m s0) end;
    reflexivity.
Qed.

Lemma fetch_web_news_Adds :
  Adds (fun r => exists article, In article (candidates w) /\ web_row w article r) quiet
       (List.length (candidates w)) (fetch_web_news w).
Proof.
  unfold fetch_web_news, candidates.
  apply Adds_seq; [now apply Adds_emit | intros _].
  apply Adds_guarded; [| intros; now apply Adds_emit].
  destruct (requests_get w web_url) as [response|e]; simpl lift.
  - apply Adds_bind_ret.
    destruct (status_code response =? 200)%Z; simpl negb; cbv iota.
    + apply Adds_then; [apply web_loop_Adds | intros; now apply Adds_emit].
    + now apply Adds_emit.
  - apply Adds_bind_raise.
Qed.

Lemma candidates_length : List.length (candidates w) <= 15.
Proof.
  unfold candidates.
  destruct (requests_get w web_url) as [response|e]; [|simpl; lia].
  destruct (status_code response =? 200)%Z; [apply firstn_le_length | simpl; lia].
Qed.

End Web.

(** ** The video module *)

Section Video.

Variable w : World.

Lemma transcribe_Adds (entry : FeedEntry) (video_id t : string) :
  yt_videoid entry = Some video_id -> title entry = Some t ->
  relevant (Py.lower t) = true ->
  Adds (video_row w entry) (entry_event entry) 1 (transcribe w entry video_id).
Proof.
  intros Hid Ht Hrel s.
  unfold transcribe, bind, lift, getattr, append, log, emit, ret, raise; simpl.
  rewrite Ht.
  destruct (get_transcript w video_id) as [segments|e] eqn:Etr;
    [destruct (published entry) as [p|] eqn:Ep;
       [destruct (link entry) as [l|] eqn:El|]|];
    close_adds; try solve [exists t; auto].
  exists video_id, t, p, l, segments; auto 10.
Qed.

Lemma youtube_entry_Adds (entry : FeedEntry) :
  Adds (video_row w entry) (entry_event entry) 1 (youtube_entry w entry).
Proof.
  unfold youtube_entry.
  destruct (yt_videoid entry) as [video_id|] eqn:Hid; simpl getattr;
    [| apply Adds_bind_raise].
  apply Adds_bind_ret.
  destruct (title entry) as [t|] eqn:Ht; simpl getattr; [| apply Adds_bind_raise].
  apply Adds_bind_ret.
  destruct (relevant (Py.lower t)) eqn:Hrel.
  - apply Adds_guarded; [now apply (transcribe_Adds entry video_id t) |].
    intros e; now apply Adds_emit.
  - apply (Adds_mono 0); [apply Adds_ret | lia].
Qed.

Lemma fetch_youtube_intelligence_Adds :
  Adds (fun r => exists entry, In entry (scanned w) /\ video_row w entry r)
       (fun ev => quiet ev \/ exists entry, In entry (scanned w) /\ entry_event entry ev)
       (List.length (scanned w)) (fetch_youtube_intelligence w).
Proof.
  unfold fetch_youtube_intelligence, scanned.
  apply Adds_seq; [apply Adds_emit; now left | intros _].
  destruct (feedparser_parse w youtube_rss_url) as [entries|e]; simpl lift;
    [| apply Adds_bind_raise].
  apply Adds_bind_ret.
  eapply Adds_mono; [apply (Adds_for_each 1) | lia].
  intros entry Hin; eapply Adds_impl; [apply youtube_entry_Adds | |]; simpl; eauto.
Qed.

Lemma scanned_length : List.length (scanned w) <= 5.
Proof.
  unfold scanned.
  destruct (feedparser_parse w youtube_rss_url); [apply firstn_le_length | simpl; lia].
Qed.

End Video.

(** ** The podcast module *)

Section Podcast.

Variable w : World.

Lemma podcast_entry_Adds (entry : FeedEntry) :
  Adds (podcast_row w entry) quiet 1 (podcast_entry w entry).
Proof.
  intros s; unfold podcast_entry, bind, getattr, append, ret, raise.
  destruct (description entry) as [d|] eqn:Ed;
    [destruct (title entry) as [t|] eqn:Et;
       [destruct (link entry) as [l|] eqn:El|]|];
    close_adds.
  exists d, t, l; auto.
Qed.

Lemma fetch_podcast_intelligence_Adds :
  Adds (fun r => exists entry, In entry (episodes w) /\ podcast_row w entry r) quiet
       (List.length (episodes w)) (fetch_podcast_intelligence w).
Proof.
  unfold fetch_podcast_intelligence, episodes.
  apply Adds_seq; [now apply Adds_emit | intros _].
  apply Adds_guarded; [| intros; now apply Adds_emit].
  destruct (feedparser_parse w podcast_rss_url) as [entries|e]; simpl lift;
    [| apply Adds_bind_raise].
  apply Adds_bind_ret.
  apply Adds_then; [| intros; now apply Adds_emit].
  eapply Adds_mono; [apply (Adds_for_each 1) | lia].
  intros entry Hin; eapply Adds_impl; [apply podcast_entry_Adds | |]; simpl; eauto.
Qed.

Lemma episodes_length : List.length (episodes w) <= 3.
Proof.
  unfold episodes.
  destruct (feedparser_parse w podcast_rss_url); [apply firstn_le_length | simpl; lia].
Qed.

(** The podcast module never lets an exception out. *)
Lemma fetch_podcast_intelligence_returns (s : State) :
  raised (fetch_podcast_intelligence w s) = false.
Proof.
  unfold fetch_podcast_intelligence, bind at 1; simpl.
  unfold try_except.
  match goal with |- context [match ?m ?s0 with _ => _ end] => destruct (m s0) end;
    reflexivity.
Qed.

End Podcast.

(** ** Sequences of modules *)

Lemma Adds_Appends {A} (P : Row -> Prop) (Q : Event -> Prop) (n : nat) (m : M A) :
  Adds P Q n m -> Appends (fun rows => Forall P rows /\ List.length rows <= n) m.
Proof.
  intros H s; destruct (H s) as (rows & evs & ? & ? & ? & ? & ?).
  exists rows; auto.
Qed.

Lemma Appends_impl {A} (R R' : list Row -> Prop) (m : M A) :
  Appends R m -> (forall rows, R rows -> R' rows) -> Appends R' m.
Proof.
  intros H HR s; destruct (H s) as (rows & ? & ?); exists rows; auto.
Qed.

Lemma Appends_bind {A B} (R1 R2 : list Row -> Prop) (m : M A) (f : A -> M B) :
  Appends R1 m -> (forall a, Appends R2 (f a)) -> R2 [] ->
  Appends (fun rows => exists r1 r2, rows = r1 ++ r2 /\ R1 r1 /\ R2 r2) (bind m f).
Proof.
  intros Hm Hf Hnil s; unfold bind.
  destruct (Hm s) as (r1 & Hd & H1).
  destruct (m s) as [a s1 | e s1]; unfold grows_by in *; simpl in Hd.
  - destruct (Hf a s1) as (r2 & Hd2 & H2).
    exists (r1 ++ r2); rewrite Hd2, Hd, app_assoc; eauto 6.
  - exists r1; simpl; split; [exact Hd |].
    exists r1, []; rewrite app_nil_r; auto.
Qed.

(** A step that appends no row, followed by [f]. *)
Lemma Appends_after {A B} (R : list Row -> Prop) (m : M A) (f : A -> M B) :
  Adds (fun _ => True) (fun _ => True) 0 m -> (forall a, Appends R (f a)) -> R [] ->
  Appends R (bind m f).
Proof.
  intros Hm Hf Hnil.
  eapply Appends_impl.
  - apply (Appends_bind (fun rows => Forall (fun _ => True) rows /\ List.length rows <= 0) R);
      [apply Adds_Appends with (Q := fun _ => True); exact Hm | exact Hf | exact Hnil].
  - intros rows (r1 & r2 & -> & (_ & Hl) & H2).
    destruct r1; [exact H2 | simpl in Hl; lia].
Qed.

(** [m], followed by steps that append no row. *)
Lemma Appends_before {A B} (R : list Row -> Prop) (m : M A) (f : A -> M B) :
  Appends R m -> (forall a, Adds (fun _ => True) (fun _ => True) 0 (f a)) ->
  Appends R (bind m f).
Proof.
  intros Hm Hf.
  eapply Appends_impl.
  - apply (Appends_bind R (fun rows => Forall (fun _ => True) rows /\ List.length rows <= 0));
      [exact Hm | intros a; apply Adds_Appends with (Q := fun _ => True); apply Hf | auto].
  - intros rows (r1 & r2 & -> & H1 & (_ & Hl)).
    destruct r2; [now rewrite app_nil_r | simpl in Hl; lia].
Qed.

Lemma fetch_web_news_Appends (w : World) :
  Appends (Forall (fun r => Source_Type r = WebNews)) (fetch_web_news w).
Proof.
  eapply Appends_impl; [apply (Adds_Appends _ _ _ _ (fetch_web_news_Adds w)) |].
  intros rows (H & _); eapply Forall_impl; [| exact H].
  intros r (article & _ & t & href & _ & _ & ->); reflexivity.
Qed.

Lemma fetch_youtube_intelligence_Appends (w : World) :
  Appends (Forall (fun r => Source_Type r = YouTubeVideo)) (fetch_youtube_intelligence w).
Proof.
  eapply Appends_impl; [apply (Adds_Appends _ _ _ _ (fetch_youtube_intelligence_Adds w)) |].
  intros rows (H & _); eapply Forall_impl; [| exact H].
  intros r (entry & _ & v & t & p & l & tr & _ & _ & _ & _ & _ & _ & ->); reflexivity.
Qed.

Lemma fetch_podcast_intelligence_Appends (w : World) :
  Appends (Forall (fun r => Source_Type r = PodcastRSS)) (fetch_podcast_intelligence w).
Proof.
  eapply Appends_impl; [apply (Adds_Appends _ _ _ _ (fetch_podcast_intelligence_Adds w)) |].
  intros rows (H & _); eapply Forall_impl; [| exact H].
  intros r (entry & _ & d & t & l & _ & _ & _ & ->); reflexivity.
Qed.

(** The end of [run], after the three modules: the store is only read. *)
Lemma export_Adds (w : World) :
  Adds (fun _ => True) (fun _ => True) 0 (save_to_csv w).
Proof.
  unfold save_to_csv.
  apply Adds_seq; [apply Adds_get_data_store | intros rows].
  destruct rows; [now apply Adds_emit |].
  cbn zeta.
  apply Adds_seq; [now apply Adds_emit | intros _].
  apply Adds_seq; [apply Adds_lift | intros _].
  apply Adds_seq; [now apply Adds_emit | intros _].
  now apply Adds_emit.
Qed.

Lemma run_Appends (w : World) : Appends by_source (run w).
Proof.
  unfold run.
  assert (Hsleep : forall a b,
             Adds (fun _ : Row => True) (fun _ : Event => True) 0 (emit (Sleep a b)))
    by (intros; now apply Adds_emit).
  assert (Hnil : by_source [])
    by (exists [], [], []; repeat split; constructor).
  apply Appends_after; [now apply Adds_emit | intros _ | exact Hnil].
  eapply Appends_impl.
  - apply (Appends_bind (Forall (fun r => Source_Type r = WebNews))
             (fun rows => exists r2 r3, rows = r2 ++ r3 /\
                Forall (fun r => Source_Type r = YouTubeVideo) r2 /\
                Forall (fun r => Source_Type r = PodcastRSS) r3)).
    + apply fetch_web_news_Appends.
    + intros _; apply Appends_after; [apply Hsleep | intros _ | exists [], []; auto].
      apply (Appends_bind (Forall (fun r => Source_Type r = YouTubeVideo))
               (Forall (fun r => Source_Type r = PodcastRSS))).
      * apply fetch_youtube_intelligence_Appends.
      * intros _; apply Appends_after; [apply Hsleep | intros _ | constructor].
        apply Appends_before; [apply fetch_podcast_intelligence_Appends |].
        intros _; apply export_Adds.
      * constructor.
    + exists [], []; auto.
  - intros rows (r1 & r23 & -> & H1 & r2 & r3 & -> & H2 & H3).
    exists r1, r2, r3; auto.
Qed.

(** ** The loops, row by row *)

Lemma state_eta (s : State) : {| data_store := data_store s; trace := trace s |} = s.
Proof. now destruct s. Qed.

Lemma web_loop_rows (w : World) (articles : list Tag) (count : nat) (s : State) :
  exists rows,
    web_loop w articles count s =
      Returns (count + List.length rows)
              {| data_store := data_store s ++ rows; trace := trace s |} /\
    Forall2 (web_row w) (filter extracts articles) rows.
Proof.
  revert count s; induction articles as [|a l IH]; intros count s.
  - exists []; simpl; rewrite app_nil_r, Nat.add_0_r, state_eta.
    split; [reflexivity | constructor].
  - cbn [web_loop filter]; unfold bind, web_step, try_except, scrape_article, bind, lift, extracts.
    destruct (tag_text a) as [t|e] eqn:Et; [destruct (tag_href a) as [href|e] eqn:Eh |];
      cbn [ret raise append].
    + destruct (IH (S count)
                   {| data_store := data_store s ++
                                    [ {| Source_Type := WebNews;
                                         Timestamp := today w;
                                         Headline := t;
                                         Snippet := "N/A (Click link for full text)";
                                         Link := resolve_link href |} ];
                      trace := trace s |}) as (rows & Hrun & Hrows).
      eexists (_ :: rows); split.
      * rewrite Hrun; cbn [data_store trace List.length].
        rewrite <- app_assoc, Nat.add_succ_r; reflexivity.
      * constructor; [exists t, href; auto | exact Hrows].
    + destruct (IH count s) as (rows & Hrun & Hrows); exists rows; auto.
    + destruct (IH count s) as (rows & Hrun & Hrows); exists rows; auto.
Qed.

Lemma fetch_web_news_rows (w : World) (s : State) :
  exists rows,
    grows_by s (state_of (fetch_web_news w s)) rows /\
    Forall2 (web_row w) (filter extracts (candidates w)) rows.
Proof.
  unfold grows_by, fetch_web_news, candidates, bind, try_except, log, emit, lift.
  destruct (requests_get w web_url) as [response | e]; cbn [ret raise].
  - destruct (status_code response =? 200)%Z; cbn [negb].
    + destruct (web_loop_rows w (firstn 15 (card_titles response)) 0
                  {| data_store := data_store s; trace := trace s ++ [Log MsgWebStart] |})
        as (rows & Hrun & Hrows).
      exists rows; rewrite Hrun; split; [reflexivity | exact Hrows].
    + exists []; cbn; rewrite app_nil_r; split; [reflexivity | constructor].
  - exists []; cbn; rewrite app_nil_r; split; [reflexivity | constructor].
Qed.

Section PodcastMore.

Variable w : World.

Lemma podcast_entry_complete (entry : FeedEntry) (s : State) :
  complete entry ->
  exists r,
    podcast_entry w entry s =
      Returns tt {| data_store := data_store s ++ [r]; trace := trace s |} /\
    podcast_row w entry r.
Proof.
  intros (Hd & Ht & Hl); unfold podcast_entry, bind, getattr, append, podcast_row.
  destruct (description entry) as [d|]; [| contradiction].
  destruct (title entry) as [t|]; [| contradiction].
  destruct (link entry) as [l|]; [| contradiction].
  cbn [ret]; eexists; split; [reflexivity |].
  exists d, t, l; auto.
Qed.

Lemma podcast_entry_incomplete (entry : FeedEntry) (s : State) :
  ~ complete entry ->
  exists attr, podcast_entry w entry s = Raises (AttributeError attr) s.
Proof.
  intros H; unfold podcast_entry, bind, getattr, complete in *.
  destruct (description entry) as [d|]; cbn [ret raise]; [| eauto].
  destruct (title entry) as [t|]; cbn [ret raise]; [| eauto].
  destruct (link entry) as [l|]; cbn [ret raise]; [| eauto].
  exfalso; apply H; repeat split; discriminate.
Qed.

Lemma podcast_loop_complete (entries : list FeedEntry) (s : State) :
  Forall complete entries ->
  exists rows,
    for_each (podcast_entry w) entries s =
      Returns tt {| data_store := data_store s ++ rows; trace := trace s |} /\
    Forall2 (podcast_row w) entries rows.
Proof.
  intros H; revert s; induction H as [|a l Ha Hl IH]; intros s; cbn [for_each].
  - exists []; rewrite app_nil_r, state_eta; split; [reflexivity | constructor].
  - destruct (podcast_entry_complete a s Ha) as (r & Hrun & Hr).
    unfold bind; rewrite Hrun.
    destruct (IH {| data_store := data_store s ++ [r]; trace := trace s |})
      as (rows & Hloop & Hrows).
    exists (r :: rows); rewrite Hloop; cbn [data_store trace].
    rewrite <- app_assoc; split; [reflexivity | now constructor].
Qed.

Lemma podcast_loop_stops (good : list FeedEntry) (bad : FeedEntry) (rest : list FeedEntry)
    (s : State) :
  Forall complete good -> ~ complete bad ->
  exists rows attr,
    for_each (podcast_entry w) (good ++ bad :: rest) s =
      Raises (AttributeError attr)
             {| data_store := data_store s ++ rows; trace := trace s |} /\
    Forall2 (podcast_row w) good rows.
Proof.
  intros H Hbad; revert s; induction H as [|a l Ha Hl IH]; intros s; cbn [for_each app].
  - destruct (podcast_entry_incomplete bad s Hbad) as (attr & Hrun).
    exists [], attr; unfold bind; rewrite Hrun, app_nil_r, state_eta.
    split; [reflexivity | constructor].
  - destruct (podcast_entry_complete a s Ha) as (r & Hrun & Hr).
    unfold bind; rewrite Hrun.
    destruct (IH {| data_store := data_store s ++ [r]; trace := trace s |})
      as (rows & attr & Hloop & Hrows).
    exists (r :: rows), attr; rewrite Hloop; cbn [data_store trace].
    rewrite <- app_assoc; split; [reflexivity | now constructor].
Qed.

End PodcastMore.

Lemma complete_dec (entry : FeedEntry) : complete entry \/ ~ complete entry.
Proof.
  unfold complete.
  destruct (description entry), (title entry), (link entry);
    solve [left; repeat split; discriminate | right; intros (? & ? & ?); congruence].
Qed.

Lemma podcast_loop_prefix (w : World) (entries : list FeedEntry) (s : State) :
  exists good rows,
    up_to_first_incomplete entries good /\
    grows_by s (state_of (for_each (podcast_entry w) entries s)) rows /\
    trace (state_of (for_each (podcast_entry w) entries s)) = trace s /\
    Forall2 (podcast_row w) good rows.
Proof.
  revert s; induction entries as [|a l IH]; intros s; cbn [for_each].
  - exists [], []; unfold grows_by; cbn; rewrite app_nil_r.
    repeat split; [exists []; repeat split; constructor | constructor].
  - unfold bind; destruct (complete_dec a) as [Ha | Ha].
    + destruct (podcast_entry_complete w a s Ha) as (r & Hrun & Hr); rewrite Hrun.
      destruct (IH {| data_store := data_store s ++ [r]; trace := trace s |})
        as (good & rows & (rest & -> & Hgood & Hrest) & Hd & Ht & Hrows).
      exists (a :: good), (r :: rows); unfold grows_by in *.
      rewrite Hd, Ht; cbn [data_store trace]; rewrite <- app_assoc.
      repeat split; [| now constructor].
      exists rest; repeat split; [now constructor | exact Hrest].
    + destruct (podcast_entry_incomplete w a s Ha) as (attr & Hrun); rewrite Hrun.
      exists [], []; unfold grows_by; cbn; rewrite app_nil_r.
      repeat split; [| constructor].
      exists (a :: l); repeat split; [constructor | exact Ha].
Qed.

Lemma fetch_podcast_intelligence_rows (w : World) (s : State) :
  exists good rows,
    up_to_first_incomplete (episodes w) good /\
    grows_by s (state_of (fetch_podcast_intelligence w s)) rows /\
    Forall2 (podcast_row w) good rows.
Proof.
  unfold fetch_podcast_intelligence, episodes, bind, try_except, log, emit, lift.
  destruct (feedparser_parse w podcast_rss_url) as [entries | e]; cbn [ret raise].
  - destruct (podcast_loop_prefix w (firstn 3 entries)
                {| data_store := data_store s; trace := trace s ++ [Log MsgPodcastStart] |})
      as (good & rows & Hgood & Hd & _ & Hrows).
    exists good, rows; split; [exact Hgood | split; [| exact Hrows]].
    unfold grows_by in *.
    destruct (for_each (podcast_entry w) (firstn 3 entries) _) as [[] s1 | e s1];
      cbn [state_of data_store] in *; exact Hd.
  - exists [], []; unfold grows_by; cbn; rewrite app_nil_r.
    repeat split; [| constructor].
    exists []; repeat split; constructor.
Qed.

Lemma Forall2_In_l {A B} (R : A -> B -> Prop) (l : list A) (l' : list B) (a : A) :
  Forall2 R l l' -> In a l -> exists b, In b l' /\ R a b.
Proof.
  induction 1 as [|x y l l' Hxy _ IH]; intros Hin; [contradiction |].
  destruct Hin as [<- | Hin].
  - exists y; split; [now left | exact Hxy].
  - destruct (IH Hin) as (b & Hb & Hab); exists b; split; [now right | exact Hab].
Qed.

(** ** Properties of the ingestion core *)

(** C3. The rows that a run appends to [data_store] are grouped by source in
    the order of the calls: first the rows of source [WebNews], then those of
    source [YouTubeVideo], then those of source [PodcastRSS]; this holds
    whether the run returns or is cut short by an exception. In particular the
    dataset of [main], which starts from the empty store, has this shape. *)
Theorem run_groups_rows_by_source (w : World) :
  (forall s, exists rows,
      grows_by s (state_of (run w s)) rows /\ by_source rows) /\
  by_source (data_store (state_of (main w))).
Proof.
  split.
  - intros s; apply run_Appends.
  - destruct (run_Appends w init) as (rows & Hd & Hr).
    unfold main; rewrite Hd; exact Hr.
Qed.

(** C4. From any state, the web module appends at most 15 rows, the video
    module at most as many rows as the feed entries it scans, which are at
    most 5, and the podcast module at most 3 rows. *)
Theorem modules_respect_caps (w : World) (s : State) :
  (exists rows, grows_by s (state_of (fetch_web_news w s)) rows /\
                List.length rows <= 15) /\
  (exists rows, grows_by s (state_of (fetch_youtube_intelligence w s)) rows /\
                List.length rows <= List.length (scanned w) /\
                List.length (scanned w) <= 5) /\
  (exists rows, grows_by s (state_of (fetch_podcast_intelligence w s)) rows /\
                List.length rows <= 3).
Proof.
  split; [| split].
  - destruct (fetch_web_news_Adds w s) as (rows & evs & Hd & _ & _ & _ & Hl).
    exists rows; split; [exact Hd |].
    pose proof (candidates_length w); lia.
  - destruct (fetch_youtube_intelligence_Adds w s) as (rows & evs & Hd & _ & _ & _ & Hl).
    exists rows; split; [exact Hd |].
    split; [exact Hl | apply scanned_length].
  - destruct (fetch_podcast_intelligence_Adds w s) as (rows & evs & Hd & _ & _ & _ & Hl).
    exists rows; split; [exact Hd |].
    pose proof (episodes_length w); lia.
Qed.

(** C6. Every row appended by the video module has a snippet of at most
    500 + 3 = 503 characters, and every row appended by the podcast module a
    snippet of at most 400 + 3 = 403 characters. *)
Theorem snippets_are_bounded (w : World) (s : State) :
  (exists rows, grows_by s (state_of (fetch_youtube_intelligence w s)) rows /\
                Forall (fun r => String.length (Snippet r) <= 500 + String.length "..." /\
                                 String.length (Snippet r) <= 503) rows) /\
  (exists rows, grows_by s (state_of (fetch_podcast_intelligence w s)) rows /\
                Forall (fun r => String.length (Snippet r) <= 400 + String.length "..." /\
                                 String.length (Snippet r) <= 403) rows).
Proof.
  split.
  - destruct (fetch_youtube_intelligence_Adds w s) as (rows & evs & Hd & _ & HP & _).
    exists rows; split; [exact Hd |].
    eapply Forall_impl; [| exact HP].
    intros r (entry & _ & v & t & p & l & tr & _ & _ & _ & _ & _ & _ & ->).
    cbn [Snippet]; rewrite length_append.
    pose proof (length_take 500 (Py.join " " tr)).
    change (String.length "...") with 3; lia.
  - destruct (fetch_podcast_intelligence_Adds w s) as (rows & evs & Hd & _ & HP & _).
    exists rows; split; [exact Hd |].
    eapply Forall_impl; [| exact HP].
    intros r (entry & _ & d & t & l & _ & _ & _ & ->).
    cbn [Snippet]; rewrite length_append.
    pose proof (length_take 400 (html_get_text w d)).
    change (String.length "...") with 3; lia.
Qed.



(** C1, as stated, fails: the web module appends the row of an element whose
    text is empty, and the podcast module the row of an episode whose title
    is empty, so the dataset of a run can hold a row with an empty
    headline. *)
Lemma headline_nonempty_counterexample :
  ~ (forall (w : World) (r : Row),
        In r (data_store (state_of (main w))) -> Headline r <> "").
Proof.
  intros H.
  apply (H sample_world
           {| Source_Type := WebNews;
              Timestamp := "2024-05-01";
              Headline := "";
              Snippet := "N/A (Click link for full text)";
              Link := Some "" |}).
  - vm_compute; right; left; reflexivity.
  - reflexivity.
Qed.

(** C1, amended. Every row appended by the video module has a non-empty
    headline, because a title that passes the keyword filter contains a
    keyword. The web module and the podcast module do not look at the
    headline. The web module appends one row, in page order, for each scanned
    element whose text and href are extracted, with the extracted text as
    the headline; the podcast module appends one row, in feed order, for each
    scanned entry before the first one that lacks a description, a title or
    a link, with the title of the entry as the headline. In particular an
    element whose extracted text is empty, and an entry whose title is empty,
    are appended with an empty headline. *)
Theorem headlines_as_extracted (w : World) (s : State) :
  (exists rows, grows_by s (state_of (fetch_youtube_intelligence w s)) rows /\
                Forall (fun r => Headline r <> "") rows) /\
  (exists rows,
      grows_by s (state_of (fetch_web_news w s)) rows /\
      Forall2 (fun article r => tag_text article = Val (Headline r))
              (filter extracts (candidates w)) rows /\
      (forall article,
          In article (candidates w) -> extracts article = true ->
          tag_text article = Val "" ->
          exists r, In r rows /\ Headline r = "")) /\
  (exists good rows,
      up_to_first_incomplete (episodes w) good /\
      grows_by s (state_of (fetch_podcast_intelligence w s)) rows /\
      Forall2 (fun entry r => title entry = Some (Headline r)) good rows /\
      (forall entry,
          In entry good -> title entry = Some "" ->
          exists r, In r rows /\ Headline r = "")) /\
  (forall article href count,
      tag_text article = Val "" -> tag_href article = Val href ->
      exists r,
        web_step w article count s =
          Returns (S count) {| data_store := data_store s ++ [r]; trace := trace s |} /\
        Headline r = "") /\
  (forall entry d l,
      description entry = Some d -> title entry = Some "" -> link entry = Some l ->
      exists r,
        podcast_entry w entry s =
          Returns tt {| data_store := data_store s ++ [r]; trace := trace s |} /\
        Headline r = "").
Proof.
  split; [| split; [| split; [| split]]].
  - destruct (fetch_youtube_intelligence_Adds w s) as (rows & evs & Hd & _ & HP & _).
    exists rows; split; [exact Hd |].
    eapply Forall_impl; [| exact HP].
    intros r (entry & _ & v & t & p & l & tr & _ & _ & Hrel & _ & _ & _ & ->).
    now apply relevant_nonempty.
  - destruct (fetch_web_news_rows w s) as (rows & Hd & Hrows).
    assert (Hrows' : Forall2 (fun article r => tag_text article = Val (Headline r))
                             (filter extracts (candidates w)) rows).
    { eapply Forall2_impl; [| exact Hrows].
      intros article r (t & href & Ht & _ & ->); exact Ht. }
    exists rows; split; [exact Hd | split; [exact Hrows' |]].
    intros article Hin Hex Hempty.
    assert (Hin' : In article (filter extracts (candidates w)))
      by (apply filter_In; auto).
    destruct (Forall2_In_l _ _ _ _ Hrows' Hin') as (r & Hr & Ht).
    exists r; split; [exact Hr | congruence].
  - destruct (fetch_podcast_intelligence_rows w s) as (good & rows & Hgood & Hd & Hrows).
    assert (Hrows' : Forall2 (fun entry r => title entry = Some (Headline r)) good rows).
    { eapply Forall2_impl; [| exact Hrows].
      intros entry r (d & t & l & _ & Ht & _ & ->); exact Ht. }
    exists good, rows; split; [exact Hgood | split; [exact Hd | split; [exact Hrows' |]]].
    intros entry Hin Hempty.
    destruct (Forall2_In_l _ _ _ _ Hrows' Hin) as (r & Hr & Ht).
    exists r; split; [exact Hr | congruence].
  - intros article href count Ht Hh.
    unfold web_step, try_except, scrape_article, bind, lift; rewrite Ht, Hh.
    cbn [ret append]; eexists; split; reflexivity.
  - intros entry d l Hd Ht Hl.
    unfold podcast_entry, bind, getattr; rewrite Hd, Ht, Hl.
    cbn [ret append]; eexists; split; reflexivity.
Qed.

(** The second sample element has an empty text, and the second sample
    episode an empty title. *)
Lemma headlines_as_extracted_witness :
  (exists r,
      web_step sample_world (nth 1 sample_cards (mkTag (Val "x") (Val None))) 1 init =
        Returns 2 {| data_store := [r]; trace := [] |} /\
      Headline r = "") /\
  (exists r,
      podcast_entry sample_world
        (nth 1 sample_episodes (mkEntry None None None None None)) init =
        Returns tt {| data_store := [r]; trace := [] |} /\
      Headline r = "").
Proof.
  pose proof (headlines_as_extracted sample_world init) as (_ & _ & _ & Hweb & Hpod).
  split.
  - apply (Hweb (nth 1 sample_cards (mkTag (Val "x") (Val None))) (Some "") 1);
      reflexivity.
  - apply (Hpod (nth 1 sample_episodes (mkEntry None None None None None))
             "<p>Carl, Jim and David.</p>" "https://example.simplecast.com/episodes/2");
      reflexivity.
Defined.

(** C2. The web module and the podcast module return from every state, but
    the video module reads [entry.yt_videoid] and [entry.title] outside any
    [try]: on a video feed whose second entry has no [yt_videoid], the
    exception leaves [fetch_youtube_intelligence] and [run]; the podcast
    module is never called, although its feed holds two episodes, and
    nothing is exported. *)
Theorem run_aborts_on_entry_without_id :
  raised (fetch_youtube_intelligence world_entry_without_id init) = true /\
  (exists s, main world_entry_without_id = Raises (AttributeError "yt_videoid") s /\
             map Source_Type (data_store s)
               = [WebNews; WebNews; WebNews; WebNews; YouTubeVideo] /\
             filter (fun ev => match ev with ToCsv _ _ => true | _ => false end)
                    (trace s) = []) /\
  map Source_Type
      (data_store (state_of (fetch_podcast_intelligence world_entry_without_id init)))
    = [PodcastRSS; PodcastRSS].
Proof.
  split; [reflexivity | split; [| reflexivity]].
  eexists; split; [vm_compute; reflexivity |].
  split; reflexivity.
Qed.

(** C5. An iteration of the video loop on an entry whose lower-cased title
    contains none of the keywords leaves the state as it was: no row, no
    transcript request, no log line. Over the whole module, every transcript
    request that was not already in the trace is for the identifier of a
    scanned entry whose title passes the filter, and every appended row
    carries the title of such an entry. *)
Theorem irrelevant_entries_are_skipped (w : World) (s : State) :
  (forall entry t,
      title entry = Some t -> relevant (Py.lower t) = false ->
      state_of (youtube_entry w entry s) = s) /\
  (forall video_id,
      In (GetTranscript video_id) (trace (state_of (fetch_youtube_intelligence w s))) ->
      In (GetTranscript video_id) (trace s) \/
      exists entry t,
        In entry (scanned w) /\ yt_videoid entry = Some video_id /\
        title entry = Some t /\ relevant (Py.lower t) = true) /\
  (exists rows,
      grows_by s (state_of (fetch_youtube_intelligence w s)) rows /\
      Forall (fun r => exists entry,
                  In entry (scanned w) /\ title entry = Some (Headline r) /\
                  relevant (Py.lower (Headline r)) = true) rows).
Proof.
  split; [| split].
  - intros entry t Ht Hrel.
    unfold youtube_entry, bind, getattr.
    destruct (yt_videoid entry); cbn [ret raise state_of]; [| reflexivity].
    rewrite Ht; cbn [ret]; rewrite Hrel; reflexivity.
  - intros video_id Hin.
    destruct (fetch_youtube_intelligence_Adds w s) as (rows & evs & _ & Ht & _ & HQ & _).
    rewrite Ht in Hin; apply in_app_or in Hin as [Hin | Hin]; [now left | right].
    rewrite Forall_forall in HQ.
    destruct (HQ _ Hin) as [[] | (entry & He & t & Hid & Htitle & Hrel)]; eauto 6.
  - destruct (fetch_youtube_intelligence_Adds w s) as (rows & evs & Hd & _ & HP & _).
    exists rows; split; [exact Hd |].
    eapply Forall_impl; [| exact HP].
    intros r (entry & Hin & v & t & p & l & tr & _ & Ht & Hrel & _ & _ & _ & ->); eauto.
Qed.

(** The sample entry "Weather" does not pass the filter. *)
Lemma irrelevant_entries_are_skipped_witness :
  state_of (youtube_entry sample_world
              (nth 2 sample_videos (mkEntry None None None None None)) init) = init.
Proof.
  apply (proj1 (irrelevant_entries_are_skipped sample_world init)) with (t := "Weather");
    reflexivity.
Defined.

(** C7. When the podcast feed cannot be parsed, the podcast module returns
    normally, logs the error and leaves [data_store] as it was. *)
Theorem podcast_parse_failure (w : World) (e : exn) (s : State) :
  feedparser_parse w podcast_rss_url = Exc e ->
  fetch_podcast_intelligence w s =
    Returns tt {| data_store := data_store s;
                  trace := trace s ++ [Log MsgPodcastStart; Log (MsgPodcastError e)] |}.
Proof.
  intros H.
  unfold fetch_podcast_intelligence, bind, try_except, log, emit.
  rewrite H; cbn; rewrite <- app_assoc; reflexivity.
Qed.

Lemma podcast_parse_failure_witness :
  fetch_podcast_intelligence world_podcast_down init =
    Returns tt {| data_store := [];
                  trace := [Log MsgPodcastStart;
                            Log (MsgPodcastError (Error "feed parse failure"))] |}.
Proof.
  apply (podcast_parse_failure world_podcast_down (Error "feed parse failure") init).
  reflexivity.
Defined.

(** C8, as stated, fails on the empty href: it does not start with ["http"],
    the guard [if link and ...] leaves it alone, and the link of the row is
    the empty string, not the site origin. *)
Lemma relative_link_counterexample :
  ~ (forall (w : World) (article : Tag) (t href : string) (s : State),
        tag_text article = Val t -> tag_href article = Val (Some href) ->
        Py.startswith href "http" = false ->
        exists r,
          grows_by s (state_of (scrape_article w article s)) [r] /\
          Link r = Some ("https://www.cnbc.com" ++ href)%string).
Proof.
  intros H.
  destruct (H sample_world (mkTag (Val "Markets wrap") (Val (Some ""))) "Markets wrap" "" init
              eq_refl eq_refl eq_refl) as (r & Hd & Hl).
  unfold grows_by in Hd; cbn in Hd.
  injection Hd as <-; discriminate Hl.
Qed.

(** C8, amended. For an element whose text and href are extracted, the web
    module appends one row; when the href is not empty and does not start
    with ["http"], the link of the row is the href with the site origin in
    front, so it starts with ["https://www.cnbc.com"]; when the href starts
    with ["http"], or is empty, the link is the href unchanged. *)
Theorem relative_links_get_origin (w : World) (article : Tag) (t href : string) (s : State) :
  tag_text article = Val t -> tag_href article = Val (Some href) ->
  exists r,
    scrape_article w article s =
      Returns tt {| data_store := data_store s ++ [r]; trace := trace s |} /\
    Headline r = t /\
    (href <> "" -> Py.startswith href "http" = false ->
     Link r = Some ("https://www.cnbc.com" ++ href)%string /\
     Py.startswith ("https://www.cnbc.com" ++ href) "https://www.cnbc.com" = true) /\
    (Py.startswith href "http" = true -> Link r = Some href) /\
    (href = "" -> Link r = Some "").
Proof.
  intros Ht Hh.
  unfold scrape_article, bind, lift; rewrite Ht; cbn [ret]; rewrite Hh; cbn [ret append].
  eexists; split; [reflexivity |].
  cbn [Headline Link resolve_link]; split; [reflexivity |].
  split; [| split].
  - intros Hne Hrel; rewrite Hrel.
    unfold Py.truthy; apply String.eqb_neq in Hne; rewrite Hne; cbn [negb andb].
    split; [reflexivity | apply prefix_append].
  - intros Habs; rewrite Habs, andb_false_r; reflexivity.
  - intros ->; reflexivity.
Qed.

Lemma relative_links_get_origin_witness :
  exists r,
    scrape_article sample_world (nth 0 sample_cards (mkTag (Val "") (Val None))) init =
      Returns tt {| data_store := [r]; trace := [] |} /\
    Headline r = "Stocks rally into the close" /\
    Link r = Some "https://www.cnbc.com/2024/05/01/stocks.html".
Proof.
  destruct (relative_links_get_origin sample_world
              (nth 0 sample_cards (mkTag (Val "") (Val None)))
              "Stocks rally into the close" "/2024/05/01/stocks.html" init
              eq_refl eq_refl) as (r & Hrun & Hh & Hrel & _).
  exists r; split; [exact Hrun | split; [exact Hh |]].
  apply Hrel; [discriminate | reflexivity].
Defined.

(** C10. An element whose text is extracted and that has no href is kept:
    the iteration appends its row with the link [None] and counts it. An
    iteration leaves the state and the count as they were exactly when the
    extraction of the text or of the href raises. *)
Theorem missing_href_is_kept (w : World) (article : Tag) (count : nat) (s : State) :
  (forall t,
      tag_text article = Val t -> tag_href article = Val None ->
      web_step w article count s =
        Returns (S count)
          {| data_store := data_store s ++
                           [ {| Source_Type := WebNews;
                                Timestamp := today w;
                                Headline := t;
                                Snippet := "N/A (Click link for full text)";
                                Link := None |} ];
             trace := trace s |}) /\
  (web_step w article count s = Returns count s <->
   (exists e, tag_text article = Exc e) \/ (exists e, tag_href article = Exc e)).
Proof.
  unfold web_step, try_except, scrape_article, bind, lift, append, ret, raise.
  split.
  - intros t Ht Hh; rewrite Ht, Hh; reflexivity.
  - destruct (tag_text article) as [t|e]; [destruct (tag_href article) as [href|e] |].
    + split.
      * intros H; injection H as Hc _; lia.
      * intros [[e He] | [e He]]; discriminate.
    + split; [eauto | reflexivity].
    + split; [eauto | reflexivity].
Qed.

Lemma missing_href_is_kept_witness :
  web_step sample_world (nth 2 sample_cards (mkTag (Val "") (Val None))) 2 init =
    Returns 3
      {| data_store := [ {| Source_Type := WebNews;
                            Timestamp := "2024-05-01";
                            Headline := "Fed holds rates";
                            Snippet := "N/A (Click link for full text)";
                            Link := None |} ];
         trace := [] |}.
Proof.
  apply (proj1 (missing_href_is_kept sample_world
                  (nth 2 sample_cards (mkTag (Val "") (Val None))) 2 init));
    reflexivity.
Defined.

(** ** Further properties of the web module *)

(** X1. When the site answers with a status other than 200, the web module
    logs the status and returns; [data_store] is as it was and no element of
    the page is looked at. *)
Theorem web_status_not_200 (w : World) (response : Response) (s : State) :
  requests_get w web_url = Val response ->
  status_code response <> 200%Z ->
  fetch_web_news w s =
    Returns tt {| data_store := data_store s;
                  trace := trace s ++ [Log MsgWebStart;
                                       Log (MsgWebStatus (status_code response))] |}.
Proof.
  intros Hget Hcode.
  unfold fetch_web_news, bind, try_except, log, emit, lift; rewrite Hget; cbn.
  apply Z.eqb_neq in Hcode; rewrite Hcode; cbn.
  rewrite <- app_assoc; reflexivity.
Qed.

Lemma web_status_not_200_witness :
  fetch_web_news world_site_down init =
    Returns tt {| data_store := [];
                  trace := [Log MsgWebStart; Log (MsgWebStatus 503)] |}.
Proof.
  apply (web_status_not_200 world_site_down (mkResponse 503 sample_cards) init);
    [reflexivity | discriminate].
Defined.

(** X2. When [requests.get] raises, the web module catches the exception,
    logs it and returns; [data_store] is as it was. *)
Theorem web_request_failure (w : World) (e : exn) (s : State) :
  requests_get w web_url = Exc e ->
  fetch_web_news w s =
    Returns tt {| data_store := data_store s;
                  trace := trace s ++ [Log MsgWebStart; Log (MsgWebError e)] |}.
Proof.
  intros Hget.
  unfold fetch_web_news, bind, try_except, log, emit, lift; rewrite Hget; cbn.
  rewrite <- app_assoc; reflexivity.
Qed.

Lemma web_request_failure_witness :
  fetch_web_news world_offline init =
    Returns tt {| data_store := [];
                  trace := [Log MsgWebStart;
                            Log (MsgWebError (Error "Connection refused"))] |}.
Proof.
  apply (web_request_failure world_offline (Error "Connection refused") init).
  reflexivity.
Defined.

(** X3. When the site answers 200, the web module returns after appending
    one row for each of the first fifteen matched elements whose text and
    href are extracted, in page order, skipping the others; the number it
    logs is the number of rows it appended, and nothing else is logged. *)
Theorem web_success (w : World) (response : Response) (s : State) :
  requests_get w web_url = Val response ->
  status_code response = 200%Z ->
  exists rows,
    fetch_web_news w s =
      Returns tt {| data_store := data_store s ++ rows;
                    trace := trace s ++ [Log MsgWebStart;
                                         Log (MsgWebDone (List.length rows))] |} /\
    Forall2 (web_row w) (filter extracts (firstn 15 (card_titles response))) rows.
Proof.
  intros Hget Hcode.
  destruct (web_loop_rows w (firstn 15 (card_titles response)) 0
              {| data_store := data_store s; trace := trace s ++ [Log MsgWebStart] |})
    as (rows & Hrun & Hrows).
  exists rows; split; [| exact Hrows].
  unfold fetch_web_news, bind, try_except, log, emit, lift; rewrite Hget; cbn [ret].
  rewrite Hcode; cbn [Z.eqb Pos.eqb negb].
  rewrite Hrun; cbn; rewrite <- app_assoc; reflexivity.
Qed.

Lemma web_success_witness :
  exists rows,
    fetch_web_news sample_world init =
      Returns tt {| data_store := rows;
                    trace := [Log MsgWebStart; Log (MsgWebDone (List.length rows))] |} /\
    Forall2 (web_row sample_world) (filter extracts sample_cards) rows.
Proof.
  apply (web_success sample_world (mkResponse 200 sample_cards) init); reflexivity.
Defined.

Lemma resolve_link_shape (link : option string) :
  resolve_link link = None \/ resolve_link link = Some "" \/
  exists l, resolve_link link = Some l /\ Py.startswith l "http" = true.
Proof.
  destruct link as [l|]; [| now left]; right; unfold resolve_link, Py.truthy.
  destruct (String.eqb_spec l "") as [-> | Hne]; cbn [negb andb]; [now left | right].
  destruct (Py.startswith l "http") eqn:Hs; cbn [negb]; eauto.
Qed.

(** X4. Every row appended by the web module has a link that is [None]
    (the element had no href), the empty string, or a string that starts
    with ["http"]: no other relative reference reaches [data_store]. *)
Theorem web_links_are_absolute (w : World) (s : State) :
  exists rows,
    grows_by s (state_of (fetch_web_news w s)) rows /\
    Forall (fun r => Link r = None \/ Link r = Some "" \/
                     exists l, Link r = Some l /\ Py.startswith l "http" = true) rows.
Proof.
  destruct (fetch_web_news_Adds w s) as (rows & evs & Hd & _ & HP & _).
  exists rows; split; [exact Hd |].
  eapply Forall_impl; [| exact HP].
  intros r (article & _ & t & href & _ & _ & ->); apply resolve_link_shape.
Qed.

(** X5. The rewriting of links is idempotent: a link that went through it
    is left unchanged by a second pass. *)
Theorem resolve_link_idempotent (link : option string) :
  resolve_link (resolve_link link) = resolve_link link.
Proof.
  destruct (resolve_link_shape link) as [H | [H | (l & H & Hs)]]; rewrite H;
    try reflexivity.
  cbn [resolve_link]; rewrite Hs, andb_false_r; reflexivity.
Qed.

(** X6. The web module and the podcast module never let an exception out:
    from every state and whatever the collaborators answer, they return. *)
Theorem web_and_podcast_modules_return (w : World) (s : State) :
  (exists s', fetch_web_news w s = Returns tt s') /\
  (exists s', fetch_podcast_intelligence w s = Returns tt s').
Proof.
  split.
  - pose proof (fetch_web_news_returns w s) as H.
    destruct (fetch_web_news w s) as [[] s' | e s']; [eauto | discriminate].
  - pose proof (fetch_podcast_intelligence_returns w s) as H.
    destruct (fetch_podcast_intelligence w s) as [[] s' | e s']; [eauto | discriminate].
Qed.

(** ** Further properties of the video module *)

Section VideoMore.

Variable w : World.

(** The guarded part of an iteration always returns. *)
Lemma guarded_transcribe_returns (entry : FeedEntry) (video_id : string) (s : State) :
  raised (try_except (transcribe w entry video_id)
            (fun e => log (MsgNoTranscript video_id (Py.take 50 (exn_str e)))) s) = false.
Proof.
  unfold try_except.
  destruct (transcribe w entry video_id s); reflexivity.
Qed.

Lemma youtube_entry_identified (entry : FeedEntry) (s : State) :
  identified entry -> raised (youtube_entry w entry s) = false.
Proof.
  intros [Hid Ht]; unfold youtube_entry, bind, getattr.
  destruct (yt_videoid entry) as [video_id|]; [| contradiction]; cbn [ret].
  destruct (title entry) as [t|]; [| contradiction]; cbn [ret].
  destruct (relevant (Py.lower t)); [apply guarded_transcribe_returns | reflexivity].
Qed.

Lemma youtube_entry_unidentified (entry : FeedEntry) (s : State) :
  ~ identified entry ->
  exists attr, youtube_entry w entry s = Raises (AttributeError attr) s.
Proof.
  intros H; unfold youtube_entry, bind, getattr, identified in *.
  destruct (yt_videoid entry) as [video_id|]; cbn [ret raise]; [| eauto].
  destruct (title entry) as [t|]; cbn [ret raise]; [| eauto].
  exfalso; apply H; split; discriminate.
Qed.

Lemma identified_dec (entry : FeedEntry) : identified entry \/ ~ identified entry.
Proof.
  unfold identified.
  destruct (yt_videoid entry), (title entry);
    solve [left; split; discriminate | right; intros [? ?]; congruence].
Qed.

Lemma youtube_loop_raised (entries : list FeedEntry) (s : State) :
  raised (for_each (youtube_entry w) entries s) = false <-> Forall identified entries.
Proof.
  revert s; induction entries as [|a l IH]; intros s; cbn [for_each].
  - split; [constructor | reflexivity].
  - unfold bind.
    destruct (identified_dec a) as [Ha | Ha].
    + pose proof (youtube_entry_identified a s Ha) as Hr.
      destruct (youtube_entry w a s) as [[] s1 | e s1]; [| discriminate].
      rewrite IH; split; [now constructor | now inversion 1].
    + destruct (youtube_entry_unidentified a s Ha) as (attr & ->); cbn.
      split; [discriminate | inversion 1; contradiction].
Qed.

End VideoMore.

(** X7. When the transcript of an entry that passes the filter cannot be
    retrieved, the iteration requests it once, logs the identifier with the
    first 50 characters of the error, appends no row, does not sleep, and
    returns, so that the loop goes on with the next entry. *)
Theorem transcript_unavailable_is_logged
    (w : World) (entry : FeedEntry) (video_id t : string) (e : exn) (s : State) :
  yt_videoid entry = Some video_id -> title entry = Some t ->
  relevant (Py.lower t) = true ->
  get_transcript w video_id = Exc e ->
  youtube_entry w entry s =
    Returns tt {| data_store := data_store s;
                  trace := trace s ++
                           [GetTranscript video_id;
                            Log (MsgNoTranscript video_id (Py.take 50 (exn_str e)))] |}.
Proof.
  intros Hid Ht Hrel Htr.
  unfold youtube_entry, transcribe, bind, try_except, getattr, lift.
  rewrite Hid; cbn [ret]; rewrite Ht; cbn [ret]; rewrite Hrel.
  cbn [emit]; rewrite Htr; cbn [raise].
  unfold log, emit; cbn [data_store trace].
  rewrite <- app_assoc; reflexivity.
Qed.

Lemma transcript_unavailable_is_logged_witness :
  youtube_entry sample_world (nth 3 sample_videos (mkEntry None None None None None)) init =
    Returns tt {| data_store := [];
                  trace := [GetTranscript "vid4";
                            Log (MsgNoTranscript "vid4"
                                   "Could not retrieve a transcript for the video")] |}.
Proof.
  apply (transcript_unavailable_is_logged sample_world
           (nth 3 sample_videos (mkEntry None None None None None)) "vid4" "Club Update"
           (Error "Could not retrieve a transcript for the video") init);
    reflexivity.
Defined.

(** X8. An entry that passes the filter and whose transcript is retrieved,
    but that has no [published] or no [link], gives no row either: the
    [AttributeError] is caught by the same handler, after the transcript was
    requested, and the entry is logged as having no transcript. *)
Theorem entry_without_metadata_is_dropped
    (w : World) (entry : FeedEntry) (video_id t : string) (segments : list string)
    (s : State) :
  yt_videoid entry = Some video_id -> title entry = Some t ->
  relevant (Py.lower t) = true ->
  get_transcript w video_id = Val segments ->
  published entry = None \/ link entry = None ->
  youtube_entry w entry s =
    Returns tt
      {| data_store := data_store s;
         trace := trace s ++
                  [GetTranscript video_id;
                   Log (MsgNoTranscript video_id
                          (Py.take 50
                             (exn_str (AttributeError
                                         match published entry with
                                         | None => "published"
                                         | Some _ => "link"
                                         end)))) ] |}.
Proof.
  intros Hid Ht Hrel Htr Hmiss.
  unfold youtube_entry, transcribe, bind, try_except, getattr, lift.
  rewrite Hid; cbn [ret]; rewrite Ht; cbn [ret]; rewrite Hrel.
  cbn [emit]; rewrite Htr; cbn [ret].
  destruct (published entry) as [p|]; cbn [ret raise].
  - destruct Hmiss as [Hp | Hl]; [discriminate |].
    rewrite Hl; cbn [raise]; unfold log, emit; cbn [data_store trace].
    rewrite <- app_assoc; reflexivity.
  - unfold log, emit; cbn [data_store trace]; rewrite <- app_assoc; reflexivity.
Qed.

Lemma entry_without_metadata_is_dropped_witness :
  youtube_entry sample_world video_without_link init =
    Returns tt {| data_store := [];
                  trace := [GetTranscript "vid1";
                            Log (MsgNoTranscript "vid1" "object has no attribute 'link'")] |}.
Proof.
  apply (entry_without_metadata_is_dropped sample_world video_without_link
           "vid1" "Stock futures rise" ["good morning"; "futures are higher"] init);
    try reflexivity.
  right; reflexivity.
Defined.

Lemma fetch_youtube_intelligence_raised (w : World) (s : State) :
  raised (fetch_youtube_intelligence w s) = false <->
  exists entries,
    feedparser_parse w youtube_rss_url = Val entries /\
    Forall identified (firstn 5 entries).
Proof.
  unfold fetch_youtube_intelligence, bind at 1; cbn [log emit].
  unfold bind, lift.
  destruct (feedparser_parse w youtube_rss_url) as [entries | e]; cbn [ret raise].
  - rewrite youtube_loop_raised; split; [eauto |].
    intros (entries' & Heq & H); injection Heq as <-; exact H.
  - split; [discriminate | intros (entries' & Heq & _); discriminate].
Qed.

(** X9. The video module returns exactly when its feed is parsed and each
    of the entries it scans has both [yt_videoid] and [title]; in every
    other case an exception leaves the module. *)
Theorem video_module_returns_iff (w : World) (s : State) :
  raised (fetch_youtube_intelligence w s) = false <->
  exists entries,
    feedparser_parse w youtube_rss_url = Val entries /\
    Forall identified (firstn 5 entries).
Proof. apply fetch_youtube_intelligence_raised. Qed.

Lemma count_app (kind : Event -> bool) (a b : list Event) :
  count kind (a ++ b) = count kind a + count kind b.
Proof. unfold count; now rewrite filter_app, length_app. Qed.

Lemma accounted_app (r1 r2 : list Row) (e1 e2 : list Event) :
  accounted r1 e1 -> accounted r2 e2 -> accounted (r1 ++ r2) (e1 ++ e2).
Proof.
  unfold accounted; intros (? & ? & ?) (? & ? & ?).
  rewrite !count_app, length_app; lia.
Qed.

Lemma youtube_entry_accounted (w : World) (entry : FeedEntry) (s : State) :
  exists rows evs,
    data_store (state_of (youtube_entry w entry s)) = data_store s ++ rows /\
    trace (state_of (youtube_entry w entry s)) = trace s ++ evs /\
    accounted rows evs /\ count is_request evs <= 1.
Proof.
  unfold youtube_entry, transcribe, bind, try_except, getattr, lift, append, log, emit,
    ret, raise.
  destruct (yt_videoid entry) as [video_id|];
    [destruct (title entry) as [t|];
       [destruct (relevant (Py.lower t));
          [destruct (get_transcript w video_id) as [segments|e];
             [destruct (published entry) as [p|];
                [destruct (link entry) as [l|] |] |] |] |] |];
    cbn [state_of data_store trace];
    eexists; eexists;
    (split; [repeat rewrite <- app_assoc; first [reflexivity | symmetry; apply app_nil_r] |]);
    (split; [repeat rewrite <- app_assoc; first [reflexivity | symmetry; apply app_nil_r] |]);
    unfold accounted; cbn; lia.
Qed.

Lemma youtube_loop_accounted (w : World) (entries : list FeedEntry) (s : State) :
  exists rows evs,
    data_store (state_of (for_each (youtube_entry w) entries s)) = data_store s ++ rows /\
    trace (state_of (for_each (youtube_entry w) entries s)) = trace s ++ evs /\
    accounted rows evs /\ count is_request evs <= List.length entries.
Proof.
  revert s; induction entries as [|a l IH]; intros s; cbn [for_each].
  - exists [], []; cbn; rewrite !app_nil_r; unfold accounted; cbn; repeat split; lia.
  - unfold bind.
    destruct (youtube_entry_accounted w a s) as (r1 & e1 & Hd1 & Ht1 & Ha1 & Hc1).
    destruct (youtube_entry w a s) as [[] s1 | e s1]; cbn [state_of] in *.
    + destruct (IH s1) as (r2 & e2 & Hd2 & Ht2 & Ha2 & Hc2).
      exists (r1 ++ r2), (e1 ++ e2).
      rewrite Hd2, Ht2, Hd1, Ht1, <- !app_assoc, count_app.
      split; [reflexivity |]; split; [reflexivity |].
      split; [now apply accounted_app | cbn [List.length]; lia].
    + exists r1, e1; split; [exact Hd1 |]; split; [exact Ht1 |].
      split; [exact Ha1 | cbn [List.length]; lia].
Qed.

Lemma fetch_youtube_intelligence_unfold (w : World) (s : State) :
  fetch_youtube_intelligence w s =
    let s0 := {| data_store := data_store s; trace := trace s ++ [Log MsgYouTubeStart] |} in
    match feedparser_parse w youtube_rss_url with
    | Val entries => for_each (youtube_entry w) (firstn 5 entries) s0
    | Exc e => Raises e s0
    end.
Proof.
  unfold fetch_youtube_intelligence, bind, lift, log, emit; cbn.
  destruct (feedparser_parse w youtube_rss_url); reflexivity.
Qed.

(** X11. Whatever the feed and the transcript provider answer, the video
    module sleeps once and logs one success line for each row it appends;
    every transcript request is answered by a row or by a failure line; and
    the module makes at most five transcript requests. *)
Theorem video_module_bookkeeping (w : World) (s : State) :
  exists rows evs,
    grows_by s (state_of (fetch_youtube_intelligence w s)) rows /\
    trace (state_of (fetch_youtube_intelligence w s)) = trace s ++ evs /\
    count is_throttle evs = List.length rows /\
    count is_retrieved evs = List.length rows /\
    count is_request evs = List.length rows + count is_unavailable evs /\
    count is_request evs <= 5.
Proof.
  rewrite fetch_youtube_intelligence_unfold; unfold grows_by; cbn zeta.
  destruct (feedparser_parse w youtube_rss_url) as [entries | e].
  - destruct (youtube_loop_accounted w (firstn 5 entries)
                {| data_store := data_store s; trace := trace s ++ [Log MsgYouTubeStart] |})
      as (rows & evs & Hd & Ht & (H1 & H2 & H3) & Hc).
    exists rows, (Log MsgYouTubeStart :: evs).
    rewrite Hd, Ht; cbn [data_store trace]; rewrite <- app_assoc.
    pose proof (firstn_le_length 5 entries).
    change (Log MsgYouTubeStart :: evs) with ([Log MsgYouTubeStart] ++ evs).
    rewrite !count_app; cbn; repeat split; auto; lia.
  - exists [], [Log MsgYouTubeStart]; cbn; rewrite app_nil_r; repeat split; lia.
Qed.

(** X14. The keyword filter is a substring test: a lower-cased title passes
    exactly when one of the keywords occurs somewhere inside it, also in the
    middle of a longer word. *)
Theorem relevant_iff_keyword_occurs (lowered : string) :
  relevant lowered = true <->
  exists k a b, In k keywords /\ lowered = (a ++ k ++ b)%string.
Proof.
  unfold relevant; rewrite existsb_exists; split.
  - intros (k & Hk & Hc); apply contains_spec in Hc as (a & b & H); eauto.
  - intros (k & a & b & Hk & H); exists k; split; [exact Hk |].
    apply contains_spec; eauto.
Qed.

(** ** Further properties of the podcast module *)

(** X12. When the podcast feed is parsed and each of its first three
    entries has a description, a title and a link, the podcast module appends
    one row per entry, in feed order, and the number of episodes it logs is
    the number of rows it appended. *)
Theorem podcast_success (w : World) (entries : list FeedEntry) (s : State) :
  feedparser_parse w podcast_rss_url = Val entries ->
  Forall complete (firstn 3 entries) ->
  exists rows,
    fetch_podcast_intelligence w s =
      Returns tt {| data_store := data_store s ++ rows;
                    trace := trace s ++ [Log MsgPodcastStart;
                                         Log (MsgPodcastParsed (List.length rows))] |} /\
    Forall2 (podcast_row w) (firstn 3 entries) rows.
Proof.
  intros Hparse Hall.
  destruct (podcast_loop_complete w (firstn 3 entries)
              {| data_store := data_store s; trace := trace s ++ [Log MsgPodcastStart] |} Hall)
    as (rows & Hloop & Hrows).
  exists rows; split; [| exact Hrows].
  unfold fetch_podcast_intelligence, bind, try_except, log, emit, lift.
  rewrite Hparse; cbn [ret]; rewrite Hloop; cbn [data_store trace].
  rewrite <- (Forall2_length Hrows), length_firstn, <- app_assoc; reflexivity.
Qed.

Lemma podcast_success_witness :
  exists rows,
    fetch_podcast_intelligence sample_world init =
      Returns tt {| data_store := rows;
                    trace := [Log MsgPodcastStart;
                              Log (MsgPodcastParsed (List.length rows))] |} /\
    Forall2 (podcast_row sample_world) sample_episodes rows.
Proof.
  apply (podcast_success sample_world sample_episodes init); [reflexivity |].
  repeat constructor; discriminate.
Defined.

(** X13. The podcast loop has no guard of its own: at the first of the
    scanned entries that lacks a description, a title or a link, the module
    stops, logs the [AttributeError] and returns. The rows of the entries
    before it stay in [data_store]; the entries after it give no row, and no
    count of parsed episodes is logged. *)
Theorem podcast_stops_at_incomplete_entry
    (w : World) (entries good : list FeedEntry) (bad : FeedEntry) (rest : list FeedEntry)
    (s : State) :
  feedparser_parse w podcast_rss_url = Val entries ->
  firstn 3 entries = good ++ bad :: rest ->
  Forall complete good -> ~ complete bad ->
  exists rows attr,
    fetch_podcast_intelligence w s =
      Returns tt {| data_store := data_store s ++ rows;
                    trace := trace s ++ [Log MsgPodcastStart;
                                         Log (MsgPodcastError (AttributeError attr))] |} /\
    Forall2 (podcast_row w) good rows.
Proof.
  intros Hparse Hsplit Hgood Hbad.
  destruct (podcast_loop_stops w good bad rest
              {| data_store := data_store s; trace := trace s ++ [Log MsgPodcastStart] |}
              Hgood Hbad)
    as (rows & attr & Hloop & Hrows).
  exists rows, attr; split; [| exact Hrows].
  unfold fetch_podcast_intelligence, bind, try_except, log, emit, lift.
  rewrite Hparse; cbn [ret]; rewrite Hsplit, Hloop; cbn [data_store trace].
  rewrite <- app_assoc; reflexivity.
Qed.

Lemma podcast_stops_at_incomplete_entry_witness :
  exists rows attr,
    fetch_podcast_intelligence world_episode_gap init =
      Returns tt {| data_store := rows;
                    trace := [Log MsgPodcastStart;
                              Log (MsgPodcastError (AttributeError attr))] |} /\
    Forall2 (podcast_row world_episode_gap) (firstn 1 episodes_with_gap) rows.
Proof.
  apply (podcast_stops_at_incomplete_entry world_episode_gap episodes_with_gap
           (firstn 1 episodes_with_gap)
           (nth 1 episodes_with_gap (mkEntry None None None None None))
           (skipn 2 episodes_with_gap) init).
  - reflexivity.
  - reflexivity.
  - repeat constructor; discriminate.
  - intros (_ & _ & H); apply H; reflexivity.
Defined.

(** ** Further properties of [run] *)

(** [run], module by module. *)
Lemma run_unfold (w : World) (s : State) :
  run w s =
    match fetch_web_news w
            {| data_store := data_store s; trace := trace s ++ [Log MsgInitiating] |} with
    | Returns _ s1 =>
        match fetch_youtube_intelligence w
                {| data_store := data_store s1; trace := trace s1 ++ [Sleep 1 1] |} with
        | Returns _ s2 =>
            match fetch_podcast_intelligence w
                    {| data_store := data_store s2; trace := trace s2 ++ [Sleep 1 1] |} with
            | Returns _ s3 => save_to_csv w s3
            | Raises e s3 => Raises e s3
            end
        | Raises e s2 => Raises e s2
        end
    | Raises e s1 => Raises e s1
    end.
Proof. reflexivity. Qed.

(** The three ways the export step ends. *)
Lemma save_to_csv_outcome (w : World) (s : State) :
  save_to_csv w s =
    match data_store s with
    | [] =>
        Returns tt {| data_store := data_store s;
                      trace := trace s ++ [Log MsgWarningNoData] |}
    | _ :: _ =>
        let filename := ("cnbc_intelligence_" ++ today_compact w ++ ".csv")%string in
        match to_csv w filename (data_store s) with
        | Val _ =>
            Returns tt
              {| data_store := data_store s;
                 trace := trace s ++
                          [ToCsv filename (data_store s);
                           Log (MsgSuccess filename);
                           Log (MsgSample
                                  (map (fun r => (Source_Type r, Headline r))
                                       (firstn 5 (data_store s))))] |}
        | Exc e =>
            Raises e {| data_store := data_store s;
                        trace := trace s ++ [ToCsv filename (data_store s)] |}
        end
    end.
Proof.
  unfold save_to_csv, bind, get_data_store, log, emit, lift.
  destruct s as [[| r rows] tr]; cbn [data_store trace]; [reflexivity |].
  cbn zeta; destruct (to_csv w _ (r :: rows)) as [[] | e];
    cbn [ret raise data_store trace]; [rewrite <- !app_assoc |]; reflexivity.
Qed.

Lemma exports_app (a b : list Event) : exports (a ++ b) = exports a ++ exports b.
Proof.
  induction a as [|ev a IH]; [reflexivity |].
  destruct ev; cbn [app exports]; rewrite IH; reflexivity.
Qed.

Lemma exports_none (Q : Event -> Prop) (evs : list Event) :
  (forall ev, Q ev -> exports [ev] = []) -> Forall Q evs -> exports evs = [].
Proof.
  intros HQ H; induction H as [|ev evs Hev _ IH]; [reflexivity |].
  change (ev :: evs) with ([ev] ++ evs); rewrite exports_app, (HQ _ Hev), IH; reflexivity.
Qed.

Lemma quiet_no_export (ev : Event) : quiet ev -> exports [ev] = [].
Proof. destruct ev; cbn; intros H; solve [reflexivity | contradiction]. Qed.

Lemma entry_event_no_export (entry : FeedEntry) (ev : Event) :
  entry_event entry ev -> exports [ev] = [].
Proof. destruct ev; cbn; intros H; solve [reflexivity | contradiction]. Qed.

(** What each module adds to a state, with no file written. *)
Lemma module_effect {A} (P : Row -> Prop) (Q : Event -> Prop) (n : nat) (m : M A) (s : State) :
  Adds P Q n m -> (forall ev, Q ev -> exports [ev] = []) ->
  exists rows evs,
    data_store (state_of (m s)) = data_store s ++ rows /\
    trace (state_of (m s)) = trace s ++ evs /\
    exports evs = [] /\ List.length rows <= n.
Proof.
  intros H HQ; destruct (H s) as (rows & evs & Hd & Ht & _ & Hev & Hl).
  exists rows, evs; repeat split; auto.
  now apply exports_none with (Q := Q).
Qed.

Lemma web_effect (w : World) (s : State) :
  exists rows evs,
    data_store (state_of (fetch_web_news w s)) = data_store s ++ rows /\
    trace (state_of (fetch_web_news w s)) = trace s ++ evs /\
    exports evs = [] /\ List.length rows <= 15.
Proof.
  destruct (module_effect _ _ _ _ s (fetch_web_news_Adds w) quiet_no_export)
    as (rows & evs & ? & ? & ? & ?).
  exists rows, evs; repeat split; auto.
  pose proof (candidates_length w); lia.
Qed.

Lemma video_effect (w : World) (s : State) :
  exists rows evs,
    data_store (state_of (fetch_youtube_intelligence w s)) = data_store s ++ rows /\
    trace (state_of (fetch_youtube_intelligence w s)) = trace s ++ evs /\
    exports evs = [] /\ List.length rows <= 5.
Proof.
  destruct (module_effect _ _ _ _ s (fetch_youtube_intelligence_Adds w))
    as (rows & evs & ? & ? & ? & ?).
  { intros ev [H | (entry & _ & H)];
      [now apply quiet_no_export | now apply entry_event_no_export with entry]. }
  exists rows, evs; repeat split; auto.
  pose proof (scanned_length w); lia.
Qed.

Lemma podcast_effect (w : World) (s : State) :
  exists rows evs,
    data_store (state_of (fetch_podcast_intelligence w s)) = data_store s ++ rows /\
    trace (state_of (fetch_podcast_intelligence w s)) = trace s ++ evs /\
    exports evs = [] /\ List.length rows <= 3.
Proof.
  destruct (module_effect _ _ _ _ s (fetch_podcast_intelligence_Adds w) quiet_no_export)
    as (rows & evs & ? & ? & ? & ?).
  exists rows, evs; repeat split; auto.
  pose proof (episodes_length w); lia.
Qed.

(** The state after the modules that ran: what [run] has added when it
    reaches the export step ([reached = true]) or when the video module
    raised. *)
Lemma run_stages (w : World) (s : State) :
  exists (reached : bool) (s3 : State) (rows : list Row) (evs : list Event),
    data_store s3 = data_store s ++ rows /\
    trace s3 = trace s ++ evs /\
    exports evs = [] /\ List.length rows <= 23 /\
    (if reached
     then exists s1 s2,
            fetch_youtube_intelligence w s1 = Returns tt s2 /\
            run w s = save_to_csv w s3
     else exists s1 e,
            fetch_youtube_intelligence w s1 = Raises e s3 /\
            run w s = Raises e s3).
Proof.
  rewrite run_unfold.
  set (s0 := {| data_store := data_store s; trace := trace s ++ [Log MsgInitiating] |}).
  destruct (web_effect w s0) as (r1 & e1 & Hd1 & Ht1 & Hx1 & Hl1).
  pose proof (fetch_web_news_returns w s0) as Hw.
  destruct (fetch_web_news w s0) as [[] s1 | e s1]; [| discriminate]; clear Hw.
  cbn [state_of] in Hd1, Ht1.
  set (s1' := {| data_store := data_store s1; trace := trace s1 ++ [Sleep 1 1] |}).
  destruct (video_effect w s1') as (r2 & e2 & Hd2 & Ht2 & Hx2 & Hl2).
  destruct (fetch_youtube_intelligence w s1') as [[] s2 | e s2] eqn:Ev;
    cbn [state_of] in Hd2, Ht2.
  - set (s2' := {| data_store := data_store s2; trace := trace s2 ++ [Sleep 1 1] |}).
    destruct (podcast_effect w s2') as (r3 & e3 & Hd3 & Ht3 & Hx3 & Hl3).
    pose proof (fetch_podcast_intelligence_returns w s2') as Hp.
    destruct (fetch_podcast_intelligence w s2') as [[] s3 | e s3]; [| discriminate].
    cbn [state_of] in Hd3, Ht3.
    exists true, s3, (r1 ++ r2 ++ r3),
           ([Log MsgInitiating] ++ e1 ++ [Sleep 1 1] ++ e2 ++ [Sleep 1 1] ++ e3).
    split; [rewrite Hd3; cbn; rewrite Hd2; cbn; rewrite Hd1; cbn;
            now rewrite <- !app_assoc |].
    split; [rewrite Ht3; cbn; rewrite Ht2; cbn; rewrite Ht1; cbn;
            now rewrite <- !app_assoc |].
    split; [rewrite !exports_app, Hx1, Hx2, Hx3; reflexivity |].
    split; [rewrite !length_app; lia |].
    exists s1', s2; split; [exact Ev | reflexivity].
  - exists false, s2, (r1 ++ r2), ([Log MsgInitiating] ++ e1 ++ [Sleep 1 1] ++ e2).
    split; [rewrite Hd2; cbn; rewrite Hd1; cbn; now rewrite <- !app_assoc |].
    split; [rewrite Ht2; cbn; rewrite Ht1; cbn; now rewrite <- !app_assoc |].
    split; [rewrite !exports_app, Hx1, Hx2; reflexivity |].
    split; [rewrite !length_app; lia |].
    exists s1', e; split; [exact Ev | reflexivity].
Qed.

(** On the sample world with a file that cannot be written, the three
    modules run, [to_csv] is called once with the seven rows, and its
    exception leaves [run]. *)
Example run_on_unwritable_file :
  exists s,
    main world_unwritable = Raises (Error "[Errno 21] Is a directory") s /\
    data_store s = data_store (state_of (main sample_world)) /\
    exports (trace s) = [("cnbc_intelligence_20240501.csv", data_store s)].
Proof. eexists; split; [vm_compute; reflexivity | split; reflexivity]. Qed.

(** X10. [run] returns exactly when the video feed is parsed, each of the
    entries the video module scans has both [yt_videoid] and [title], and,
    if [data_store] is not empty when the modules are done, the call of
    [to_csv] on it returns: the web module and the podcast module never make
    [run] raise. *)
Theorem run_returns_iff (w : World) (s : State) :
  raised (run w s) = false <->
  (exists entries,
      feedparser_parse w youtube_rss_url = Val entries /\
      Forall identified (firstn 5 entries)) /\
  (data_store (state_of (run w s)) = [] \/
   to_csv w ("cnbc_intelligence_" ++ today_compact w ++ ".csv")%string
          (data_store (state_of (run w s))) = Val tt).
Proof.
  destruct (run_stages w s) as ([|] & s3 & rows & evs & _ & _ & _ & _ & H).
  - destruct H as (s1 & s2 & Hv & ->).
    rewrite <- (fetch_youtube_intelligence_raised w s1), Hv, save_to_csv_outcome.
    destruct s3 as [[| r rest] tr]; cbn [data_store trace].
    + cbn; split; auto.
    + cbn zeta.
      destruct (to_csv w _ (r :: rest)) as [[] | e] eqn:E; cbn [raised state_of data_store].
      * rewrite E; split; auto.
      * rewrite E; split; [discriminate |].
        intros (_ & [H | H]); discriminate.
  - destruct H as (s1 & e & Hv & ->).
    rewrite <- (fetch_youtube_intelligence_raised w s1), Hv; cbn [raised].
    split; [discriminate | intros (H & _); exact H].
Qed.

(** X15. When [run] returns with a non-empty [data_store], it has called
    [to_csv] exactly once, with a file named after the current date and the
    whole [data_store], and that call returned; when it returns with an
    empty [data_store], it has not called [to_csv] and its last line is the
    warning. When [run] raises, either [to_csv] was not called, or it was
    called once with the whole [data_store] and the exception is the one this
    call raised. *)
Theorem run_exports_the_dataset (w : World) (s : State) :
  (forall s', run w s = Returns tt s' ->
     exists evs,
       trace s' = trace s ++ evs /\
       match data_store s' with
       | _ :: _ =>
           exports evs =
             [(("cnbc_intelligence_" ++ today_compact w ++ ".csv")%string, data_store s')] /\
           to_csv w ("cnbc_intelligence_" ++ today_compact w ++ ".csv")%string
                  (data_store s') = Val tt
       | [] =>
           exports evs = [] /\ exists evs0, evs = evs0 ++ [Log MsgWarningNoData]
       end) /\
  (forall e s', run w s = Raises e s' ->
     exists evs,
       trace s' = trace s ++ evs /\
       (exports evs = [] \/
        exports evs =
          [(("cnbc_intelligence_" ++ today_compact w ++ ".csv")%string, data_store s')] /\
        to_csv w ("cnbc_intelligence_" ++ today_compact w ++ ".csv")%string
               (data_store s') = Exc e)).
Proof.
  destruct (run_stages w s) as ([|] & s3 & rows & evs & Hd & Ht & Hx & _ & H).
  - destruct H as (s1 & s2 & _ & Hrun); rewrite Hrun, save_to_csv_outcome; clear Hrun.
    destruct s3 as [[| r rest] tr]; cbn [data_store trace] in *.
    + split; [| discriminate].
      intros s' H; injection H as <-; cbn [data_store trace]; rewrite Ht, <- app_assoc.
      eexists; split; [reflexivity |].
      rewrite exports_app, Hx; split; [reflexivity | eauto].
    + cbn zeta.
      destruct (to_csv w _ (r :: rest)) as [[] | e] eqn:E; split; try discriminate.
      * intros s' H; injection H as <-; cbn [data_store trace]; rewrite Ht, <- app_assoc.
        eexists; split; [reflexivity |].
        rewrite exports_app, Hx; split; [reflexivity | exact E].
      * intros e' s' H; injection H as <- <-; cbn [data_store trace].
        rewrite Ht, <- app_assoc.
        eexists; split; [reflexivity |].
        right; rewrite exports_app, Hx; split; [reflexivity | exact E].
  - destruct H as (s1 & e & _ & Hrun); rewrite Hrun; clear Hrun.
    split; [discriminate |].
    intros e' s' H; injection H as _ <-; eauto.
Qed.

(** X16. A run keeps what [data_store] and the trace already held and only
    appends to them, whether it returns or raises; it appends at most
    15 + 5 + 3 = 23 rows. *)
Theorem run_appends_at_most_23_rows (w : World) (s : State) :
  exists rows evs,
    grows_by s (state_of (run w s)) rows /\
    trace (state_of (run w s)) = trace s ++ evs /\
    List.length rows <= 23.
Proof.
  destruct (run_stages w s) as ([|] & s3 & rows & evs & Hd & Ht & _ & Hl & H).
  - destruct H as (s1 & s2 & _ & ->).
    destruct (export_Adds w s3) as (r4 & e4 & Hd4 & Ht4 & _ & _ & Hl4).
    destruct r4; [| cbn in Hl4; lia].
    exists rows, (evs ++ e4); unfold grows_by.
    rewrite Hd4, Ht4, Hd, Ht, app_nil_r, <- app_assoc; auto.
  - destruct H as (s1 & e & _ & ->).
    exists rows, evs; unfold grows_by; cbn [state_of]; auto.
Qed.
